(** * pySpreadsheetCompiler: a shallow embedding of [spreadsheet_compiler.py]

    The development follows the source file top to bottom:

    - [Py]: the Python string primitives the program calls
      ([str.upper], [in] on strings, [' '.join], [str.endswith], [str] of
      an integer);
    - [Cell], [DataFrame] and the pandas operations the program calls
      ([DataFrame.empty], [dropna], [astype(str)], [str.contains],
      column assignment, [pd.concat]);
    - [Float64]: the binary64 product [len(columns) * 0.2] that
      [dropna(thresh=...)] compares against;
    - [clean_dataframe] and [compile_xlsx_to_csv], line by line.

    Conventions of the embedding.  Text is ASCII ([string] of the
    standard library), so [str.upper] only moves the letters a-z.  A
    dataframe carries its column labels and its rows; its index is the
    default [RangeIndex] that [pd.read_excel] produces, so the label that
    [iterrows] yields for a row is the position [iloc] takes.  Printing
    is not modelled. *)

From Stdlib Require Import List String Ascii ZArith Lia Bool Arith.
From Stdlib Require Import Numbers.DecimalString.
Import ListNotations.

Local Open Scope string_scope.
Local Open Scope list_scope.

(* ===================================================================== *)
(** ** Python strings *)
(* ===================================================================== *)

Module Py.

(** [c.upper()] on one ASCII character. *)
Definition is_lower (c : ascii) : bool :=
  let n := nat_of_ascii c in ((97 <=? n) && (n <=? 122))%nat.

Definition upper_ascii (c : ascii) : ascii :=
  if is_lower c then ascii_of_nat (nat_of_ascii c - 32) else c.

(** [s.upper()] *)
Fixpoint upper (s : string) : string :=
  match s with
  | EmptyString => EmptyString
  | String c s' => String (upper_ascii c) (upper s')
  end.

(** [s.startswith(p)] *)
Fixpoint startswith (p s : string) : bool :=
  match p, s with
  | EmptyString, _ => true
  | String _ _, EmptyString => false
  | String a p', String b s' => Ascii.eqb a b && startswith p' s'
  end.

(** [p in s]: [p] occurs in [s] as a contiguous substring. *)
Fixpoint contains (p s : string) : bool :=
  startswith p s
  || match s with
     | EmptyString => false
     | String _ s' => contains p s'
     end.

(** [sep.join(l)] *)
Fixpoint join (sep : string) (l : list string) : string :=
  match l with
  | [] => EmptyString
  | [x] => x
  | x :: rest => x ++ sep ++ join sep rest
  end.

(** [s.endswith(p)] *)
Definition endswith (p s : string) : bool :=
  let n := String.length s in
  let k := String.length p in
  (k <=? n)%nat && String.eqb (substring (n - k) k s) p.

(** [str(z)] for a Python [int]. *)
Definition str_int (z : Z) : string := NilEmpty.string_of_int (Z.to_int z).

(** Some character of [s] is a lower-case letter. *)
Fixpoint has_lower (s : string) : bool :=
  match s with
  | EmptyString => false
  | String c s' => is_lower c || has_lower s'
  end.

End Py.

(* ===================================================================== *)
(** ** Cells and dataframes *)
(* ===================================================================== *)

(** A cell as [pd.read_excel] delivers it: missing ([NaN]), text, or a whole
    number.  Fractional numbers and dates are left out; no keyword of the
    program can occur in their printed form either. *)
Inductive Cell : Type :=
| NaN : Cell
| Str : string -> Cell
| Int : Z -> Cell.

Definition Cell_eq_dec (a b : Cell) : {a = b} + {a <> b}.
Proof.
  decide equality; [apply string_dec | apply Z.eq_dec].
Defined.

Definition Cell_eqb (a b : Cell) : bool :=
  if Cell_eq_dec a b then true else false.

(** [pd.notna(cell)] *)
Definition notna (c : Cell) : bool :=
  match c with
  | NaN => false
  | _ => true
  end.

(** [str(cell)]; a missing value prints as ["nan"]. *)
Definition str (c : Cell) : string :=
  match c with
  | NaN => "nan"
  | Str s => s
  | Int z => Py.str_int z
  end.

Definition Row : Type := list Cell.

Record DataFrame : Type := mkDataFrame {
  columns : list Cell;
  rows : list Row
}.

(** The exceptions that reach the model. *)
Inductive Exn : Type :=
| AttributeError      (* [.str] asked of a DataFrame *)
| KeyError            (* [df[label]] on an absent label *)
| InvalidIndexError   (* [pd.concat] reindexing on duplicate labels *)
| ValueError          (* [pd.concat] of no frame at all *)
| ReadError.          (* whatever [pd.read_excel] raises *)

Inductive Result (A : Type) : Type :=
| Ok : A -> Result A
| Raise : Exn -> Result A.

Arguments Ok {A} _.
Arguments Raise {A} _.

(** [count_occ] on labels, as a bool-friendly nat. *)
Definition label_count (l : list Cell) (c : Cell) : nat :=
  count_occ Cell_eq_dec l c.

Definition label_in (c : Cell) (l : list Cell) : bool :=
  existsb (Cell_eqb c) l.

(* ===================================================================== *)
(** ** The binary64 threshold [len(columns) * 0.2] *)
(* ===================================================================== *)

(** A finite non-negative binary64 number is kept as a pair [(m, e)]
    standing for [m * 2^e].  Only what [len(clean_df.columns) * 0.2] and
    the comparison [count >= thresh] need is modelled: conversion of a
    non-negative integer, multiplication with rounding to nearest, ties to
    even, on 53 significant bits, and the exact comparison of an integer
    with such a number.  Overflow and subnormals are out of reach of a
    column count. *)
Module Float64.

Local Open Scope Z_scope.

Definition t : Type := (Z * Z)%type.

(** [m / 2^s] rounded to the nearest integer, ties to even. *)
Definition rne (m s : Z) : Z :=
  let q := m / 2 ^ s in
  let r := m mod 2 ^ s in
  let h := 2 ^ (s - 1) in
  if r <? h then q
  else if h <? r then q + 1
  else if Z.even q then q else q + 1.

(** Round [m * 2^e] to 53 significant bits. *)
Definition round53 (m e : Z) : t :=
  let s := Z.log2 m - 52 in
  if s <=? 0 then (m, e) else (rne m s, e + s).

(** [float(n)] *)
Definition of_int (n : Z) : t := round53 n 0.

(** [x * y] *)
Definition mul (x y : t) : t := round53 (fst x * fst y) (snd x + snd y).

(** The literal [0.2], that is 0x3FC999999999999A. *)
Definition c02 : t := (7205759403792794, -55).

(** [k >= x] for an integer [k]. *)
Definition int_ge (k : Z) (x : t) : bool :=
  let (m, e) := x in
  if 0 <=? e then m * 2 ^ e <=? k else m <=? k * 2 ^ (- e).

End Float64.

(* ===================================================================== *)
(** ** pandas operations *)
(* ===================================================================== *)

(** [df.empty]: some axis has length 0. *)
Definition empty (df : DataFrame) : bool :=
  (List.length (rows df) =? 0)%nat || (List.length (columns df) =? 0)%nat.

(** [df.dropna(how='all')] *)
Definition dropna_all (df : DataFrame) : DataFrame :=
  mkDataFrame (columns df) (filter (existsb notna) (rows df)).

(** The per-row [count()] of non-missing cells. *)
Definition count_notna (r : Row) : Z := Z.of_nat (List.length (filter notna r)).

(** [df.dropna(thresh=th)]: keep the rows with [count >= th]. *)
Definition dropna_thresh (th : Float64.t) (df : DataFrame) : DataFrame :=
  mkDataFrame (columns df)
    (filter (fun r => Float64.int_ge (count_notna r) th) (rows df)).

(** [df[mask]] for a boolean mask aligned with the rows. *)
Fixpoint select_rows (mask : list bool) (rs : list Row) : list Row :=
  match mask, rs with
  | b :: mask', r :: rs' =>
      if b then r :: select_rows mask' rs' else select_rows mask' rs'
  | _, _ => []
  end.

(** The position of the first column labelled [c]. *)
Fixpoint index_of (c : Cell) (l : list Cell) : option nat :=
  match l with
  | [] => None
  | x :: l' =>
      if Cell_eqb x c then Some 0%nat
      else match index_of c l' with
           | Some i => Some (S i)
           | None => None
           end
  end.

(** [df[label]] followed by the [.str] accessor.  A label held by one
    column selects a Series; a label held by several columns selects a
    DataFrame, which has no [.str]. *)
Definition getitem_str (df : DataFrame) (label : Cell) : Result (list Cell) :=
  match label_count (columns df) label, index_of label (columns df) with
  | 1%nat, Some i => Ok (map (fun r => nth i r NaN) (rows df))
  | 0%nat, _ | _, None => Raise KeyError
  | _, _ => Raise AttributeError
  end.

(** [df[label] = v] with a scalar [v]: an existing label has its column(s)
    overwritten, a new label is appended as the last column. *)
Fixpoint assign (label v : Cell) (cols : list Cell) (r : Row) : Row :=
  match cols, r with
  | c :: cols', x :: r' =>
      (if Cell_eqb c label then v else x) :: assign label v cols' r'
  | _, _ => r
  end.

Definition setitem_row (cols : list Cell) (label v : Cell) (r : Row) : Row :=
  if label_in label cols then assign label v cols r else r ++ [v].

Definition setitem (df : DataFrame) (label v : Cell) : DataFrame :=
  mkDataFrame
    (if label_in label (columns df) then columns df else columns df ++ [label])
    (map (setitem_row (columns df) label v) (rows df)).

(** [acc.union(other, sort=False)]: the labels of [acc], then the labels of
    [other] that [acc] lacks. *)
Definition union (acc other : list Cell) : list Cell :=
  acc ++ filter (fun c => negb (label_in c acc)) other.

(** The columns of an outer join: first-seen order across the frames. *)
Definition union_columns (dfs : list DataFrame) : list Cell :=
  fold_left (fun acc df => union acc (columns df)) dfs [].

(** The value a row holds under a label; missing when the label is not
    among the columns. *)
Definition cell_at (cols : list Cell) (r : Row) (c : Cell) : Cell :=
  match index_of c cols with
  | Some i => nth i r NaN
  | None => NaN
  end.

(** One row of [df] laid out on the labels [u]. *)
Definition reindex_row (cols u : list Cell) (r : Row) : Row :=
  map (cell_at cols r) u.

(** [df.reindex(columns=u)], its rows. *)
Definition reindex (u : list Cell) (df : DataFrame) : list Row :=
  map (reindex_row (columns df) u) (rows df).

Fixpoint labels_eqb (a b : list Cell) : bool :=
  match a, b with
  | [], [] => true
  | x :: a', y :: b' => Cell_eqb x y && labels_eqb a' b'
  | _, _ => false
  end.

Fixpoint unique_labels (l : list Cell) : bool :=
  match l with
  | [] => true
  | c :: l' => negb (label_in c l') && unique_labels l'
  end.

(** Frames as [pd.read_excel] builds them: pairwise distinct labels (repeated
    header names are renamed on reading) and rows as wide as the header. *)
Definition well_formed (df : DataFrame) : bool :=
  unique_labels (columns df)
  && forallb (fun r => (List.length r =? List.length (columns df))%nat) (rows df).

(** [pd.concat(dfs, ignore_index=True)]: outer join on the columns
    ([sort=False], the default since pandas 1.0), rows stacked in order.
    Frames whose column indexes are all equal are stacked as they are;
    otherwise every frame is reindexed on the first-seen union of the
    labels, which pandas refuses for a frame with a repeated label. *)
Definition concat (dfs : list DataFrame) : Result DataFrame :=
  match dfs with
  | [] => Raise ValueError
  | d :: ds =>
      if forallb (fun d' => labels_eqb (columns d') (columns d)) ds
      then Ok (mkDataFrame (columns d) (flat_map rows dfs))
      else if forallb (fun d' => unique_labels (columns d')) dfs
      then let u := union_columns dfs in
           Ok (mkDataFrame u (flat_map (reindex u) dfs))
      else Raise InvalidIndexError
  end.

(** [re.search('|'.join(alts), s)] for alternatives free of regular
    expression metacharacters: some alternative occurs in [s]. *)
Definition re_search_any (alts : list string) (s : string) : bool :=
  existsb (fun kw => Py.contains kw s) alts.

(* ===================================================================== *)
(** ** [clean_dataframe] *)
(* ===================================================================== *)

Definition header_indicators : list string :=
  [ "CUSTOMER_INVOICE_NUMBER"; "ID"; "INVOICE"; "CUSTOMER"; "BILLING";
    "CURRENCY"; "DATE"; "AMOUNT"; "FEE"; "CHARGE" ].

(** [' '.join(str(cell).upper() for cell in row.values if pd.notna(cell))] *)
Definition row_str (row : Row) : string :=
  Py.join " " (map (fun cell => Py.upper (str cell)) (filter notna row)).

(** [sum(1 for indicator in header_indicators if indicator in row_str)] *)
Definition indicators_found (s : string) : nat :=
  List.length (filter (fun indicator => Py.contains indicator s) header_indicators).

(** The body of the search loop: does this row stop the search? *)
Definition is_header_row (row : Row) : bool :=
  let s := row_str row in
  if existsb (fun indicator => Py.contains indicator s) header_indicators
  then (2 <=? indicators_found s)%nat
  else false.

(** [for idx, row in df.iterrows(): ... header_row_idx = idx; break] *)
Fixpoint find_header (idx : nat) (rs : list Row) : option nat :=
  match rs with
  | [] => None
  | row :: rest =>
      if is_header_row row then Some idx else find_header (S idx) rest
  end.

Definition header_row_idx (df : DataFrame) : option nat :=
  find_header 0 (rows df).

(** The keyword list of the header-found branch, as written. *)
Definition metadata_keywords_header : list string :=
  [ "Monthly Billing Summary"; "Report"; "TOTAL"; "Summary";
    "Generated"; "Period"; "Currency"; "Page" ].

(** The keyword list of the other branch, as written. *)
Definition metadata_keywords_general : list string :=
  [ "Monthly Billing Summary"; "Report"; "Generated on"; "Period:";
    "Currency:" ].

(** The mask of the header-found branch, for one first-column value:
    [astype(str).str.upper().str.contains('|'.join(metadata_keywords))]. *)
Definition header_mask (c : Cell) : bool :=
  re_search_any metadata_keywords_header (Py.upper (str c)).

(** The branch [if header_row_idx is not None]. *)
Definition header_path (df : DataFrame) (k : nat) : Result DataFrame :=
  let new_header := nth k (rows df) [] in
  let data_df := mkDataFrame (columns df) (skipn (k + 1) (rows df)) in
  let data_df := mkDataFrame new_header (rows data_df) in
  let data_df := dropna_all data_df in
  if negb (empty data_df) then
    match columns data_df with
    | [] => Ok data_df
    | first_col :: _ =>
        if label_in first_col (columns data_df) then
          match getitem_str data_df first_col with
          | Ok series =>
              let mask := map header_mask series in
              Ok (mkDataFrame (columns data_df)
                    (select_rows (map negb mask) (rows data_df)))
          | Raise e => Raise e
          end
        else Ok data_df
    end
  else Ok data_df.

(** One turn of [for keyword in metadata_keywords] in the other branch:
    [astype(str)], then per column [str.upper().str.contains(kw)], then
    [any(axis=1)].  The keywords hold no regular expression
    metacharacter, so the search is a substring test. *)
Definition row_mentions (kw : string) (r : Row) : bool :=
  existsb (fun c => Py.contains kw (Py.upper (str c))) r.

Definition drop_keyword (clean_df : DataFrame) (keyword : string) : DataFrame :=
  let keyword_upper := Py.upper keyword in
  let mask := map (row_mentions keyword_upper) (rows clean_df) in
  mkDataFrame (columns clean_df) (select_rows (map negb mask) (rows clean_df)).

(** [len(clean_df.columns) * 0.2] *)
Definition thresh (ncols : nat) : Float64.t :=
  Float64.mul (Float64.of_int (Z.of_nat ncols)) Float64.c02.

(** The [else] branch. *)
Definition general_path (df : DataFrame) : DataFrame :=
  let clean_df := fold_left drop_keyword metadata_keywords_general df in
  dropna_thresh (thresh (List.length (columns clean_df))) clean_df.

Definition clean_dataframe (df : DataFrame) : Result DataFrame :=
  if empty df then Ok df
  else match header_row_idx df with
       | Some k => header_path df k
       | None => Ok (general_path df)
       end.

(* ===================================================================== *)
(** ** [compile_xlsx_to_csv] *)
(* ===================================================================== *)

(** A file of the ready folder: its name and what [pd.read_excel] does on
    it, a dataframe or an exception. *)
Record XlsxFile : Type := mkXlsxFile {
  name : string;
  read_excel : Result DataFrame
}.

(** The three folders.  They always exist ([mkdir(exist_ok=True)]); the
    output side maps the path of a file to the table written there. *)
Record Folders : Type := mkFolders {
  ready : list XlsxFile;
  done : list XlsxFile;
  output : list (string * DataFrame)
}.

(** [ready_path.glob("*.xlsx")], in the order the folder lists its files. *)
Definition glob_xlsx (l : list XlsxFile) : list XlsxFile :=
  filter (fun f => Py.endswith ".xlsx" (name f)) l.

Definition source_file : Cell := Str "source_file".

(** The body of [for xlsx_file in xlsx_files], on the pair
    [(all_dataframes, processed_files)].  The call of [clean_dataframe] is
    commented out in the source: [df_cleaned = df]. *)
Definition process_file (acc : list DataFrame * list XlsxFile)
    (xlsx_file : XlsxFile) : list DataFrame * list XlsxFile :=
  let (all_dataframes, processed_files) := acc in
  match read_excel xlsx_file with
  | Ok df =>
      let df_cleaned := df in
      if negb (empty df_cleaned) then
        let df_cleaned := setitem df_cleaned source_file (Str (name xlsx_file)) in
        (all_dataframes ++ [df_cleaned], processed_files ++ [xlsx_file])
      else acc
  | Raise _ => acc
  end.

(** What one file adds to [all_dataframes]. *)
Definition frame_of (f : XlsxFile) : list DataFrame :=
  match read_excel f with
  | Ok df => if empty df then [] else [setitem df source_file (Str (name f))]
  | Raise _ => []
  end.

(** The file is read and its frame is not empty. *)
Definition survives (f : XlsxFile) : bool :=
  match read_excel f with
  | Ok df => negb (empty df)
  | Raise _ => false
  end.

(** The rows of the file as read; none when the read fails. *)
Definition read_rows (f : XlsxFile) : list Row :=
  match read_excel f with
  | Ok df => rows df
  | Raise _ => []
  end.

Definition process_files (xlsx_files : list XlsxFile)
  : list DataFrame * list XlsxFile :=
  fold_left process_file xlsx_files ([], []).

Definition remove_named {A : Type} (key : A -> string) (n : string)
    (l : list A) : list A :=
  filter (fun x => negb (String.eqb (key x) n)) l.

(** [combined_df.to_csv(output_file_path, index=False)] *)
Definition to_csv (out : list (string * DataFrame)) (n : string)
    (df : DataFrame) : list (string * DataFrame) :=
  (n, df) :: remove_named fst n out.

Section Run.

(** The argument [output_folder], a folder name such as ["CSV"]. *)
Variable output_folder : string.

(** [datetime.now().strftime("%Y%m%d_%H%M%S")] *)
Variable timestamp : string.

(** Whether [shutil.move] of the file of that name goes through. *)
Variable can_move : string -> bool.

Definition output_name (output_filename : option string) : string :=
  let output_filename :=
    match output_filename with
    | None => ("combined_data_" ++ timestamp ++ ".csv")%string
    | Some n => n
    end in
  if negb (Py.endswith ".csv" output_filename)
  then (output_filename ++ ".csv")%string
  else output_filename.

(** [str(output_path / output_filename)]: the file name under the output
    folder, written with the separator [/]. *)
Definition output_file_path (output_filename : option string) : string :=
  (output_folder ++ "/" ++ output_name output_filename)%string.

(** One turn of [for xlsx_file in processed_files]: the move, or the
    [except] that only reports. *)
Definition move (fs : Folders) (xlsx_file : XlsxFile) : Folders :=
  if can_move (name xlsx_file) then
    mkFolders (remove_named name (name xlsx_file) (ready fs))
              (xlsx_file :: remove_named name (name xlsx_file) (done fs))
              (output fs)
  else fs.

(** The function returns the path of the file written, or [None]; an
    exception of [pd.concat] is not caught. *)
Definition compile_xlsx_to_csv (fs : Folders) (output_filename : option string)
  : Result (Folders * option string) :=
  let xlsx_files := glob_xlsx (ready fs) in
  match xlsx_files with
  | [] => Ok (fs, None)
  | _ :: _ =>
      let (all_dataframes, processed_files) := process_files xlsx_files in
      match all_dataframes with
      | [] => Ok (fs, None)
      | _ :: _ =>
          match concat all_dataframes with
          | Raise e => Raise e
          | Ok combined_df =>
              let output_file_path := output_file_path output_filename in
              let fs := mkFolders (ready fs) (done fs)
                          (to_csv (output fs) output_file_path combined_df) in
              let fs := fold_left move processed_files fs in
              Ok (fs, Some output_file_path)
          end
      end
  end.

(** The folders after a run that wrote [combined_df]: the table is in
    the output folder and the recorded files have been moved. *)
Definition after_run (fs : Folders) (output_filename : option string)
    (combined_df : DataFrame) : Folders :=
  fold_left move
    (filter survives (glob_xlsx (ready fs)))
    (mkFolders (ready fs) (done fs)
       (to_csv (output fs) (output_file_path output_filename) combined_df)).

End Run.

(** The table stored at a path of the output side. *)
Fixpoint lookup (n : string) (out : list (string * DataFrame)) : option DataFrame :=
  match out with
  | [] => None
  | (k, df) :: out' => if String.eqb k n then Some df else lookup n out'
  end.

(* ===================================================================== *)
(** ** Sample sheets *)
(* ===================================================================== *)

(** A sheet given by its rows alone, as the frame whose columns carry the
    positional labels 0, 1, ... and whose short rows are padded with
    missing values. *)
Definition width (rs : list Row) : nat :=
  fold_right (fun r w => Nat.max (List.length r) w) 0%nat rs.

Definition pad (w : nat) (r : Row) : Row :=
  r ++ repeat NaN (w - List.length r).

Definition sheet (rs : list Row) : DataFrame :=
  let w := width rs in
  mkDataFrame (map (fun i => Int (Z.of_nat i)) (seq 0 w)) (map (pad w) rs).

Definition Sheet1 : DataFrame :=
  sheet [ [Str "Monthly Billing Summary"];
          [Str "INVOICE"; Str "CUSTOMER"; Str "AMOUNT"];
          [Str "1001"; Str "Acme"; Str "50.00"] ].

Definition Sheet2 : DataFrame :=
  sheet [ [Str "INVOICE"; Str "CUSTOMER"; Str "FEE"];
          [Str "1002"; Str "Globex"; Str "10.00"] ].

Definition two_sheets : Folders :=
  mkFolders [ mkXlsxFile "Sheet1.xlsx" (Ok Sheet1);
              mkXlsxFile "Sheet2.xlsx" (Ok Sheet2) ] [] [].

(** A header row with a missing cell in the middle. *)
Definition gap_sheet : DataFrame :=
  sheet [ [Str "INVOICE"; NaN; Str "AMOUNT"];
          [Str "1001"; Str "Acme"; Str "50.00"] ].

(** No rows, but column names. *)
Definition named_empty : DataFrame :=
  mkDataFrame [Str "INVOICE"; Str "AMOUNT"] [].

(** Metadata rows below the header. *)
Definition report_sheet : DataFrame :=
  sheet [ [Str "INVOICE"; Str "CUSTOMER"; Str "AMOUNT"];
          [Str "Report"; NaN; NaN];
          [Str "Monthly Billing Summary"; NaN; NaN];
          [Str "1001"; Str "Acme"; Str "50.00"];
          [Str "TOTAL"; NaN; Str "50.00"] ].

(** A metadata row in a sheet without header row. *)
Definition report_without_header : DataFrame :=
  sheet [ [Str "Report"; Str "x"];
          [Str "1001"; Str "Acme"] ].

(** [pd.read_excel] with its defaults takes the first row of a sheet for
    the column names and names a blank header cell ["Unnamed: i"]. *)
Definition Sheet1_first_row_header : DataFrame :=
  mkDataFrame [Str "Monthly Billing Summary"; Str "Unnamed: 1"; Str "Unnamed: 2"]
    [ [Str "INVOICE"; Str "CUSTOMER"; Str "AMOUNT"];
      [Str "1001"; Str "Acme"; Str "50.00"] ].

Definition Sheet2_first_row_header : DataFrame :=
  mkDataFrame [Str "INVOICE"; Str "CUSTOMER"; Str "FEE"]
    [ [Str "1002"; Str "Globex"; Str "10.00"] ].

Definition two_sheets_first_row_header : Folders :=
  mkFolders [ mkXlsxFile "Sheet1.xlsx" (Ok Sheet1_first_row_header);
              mkXlsxFile "Sheet2.xlsx" (Ok Sheet2_first_row_header) ] [] [].

(** Two tables on the columns A, B and B, C. *)
Definition table_AB : DataFrame :=
  mkDataFrame [Str "A"; Str "B"] [ [Int 1; Int 2] ].

Definition table_BC : DataFrame :=
  mkDataFrame [Str "B"; Str "C"] [ [Int 3; Int 4] ].

Definition tables_AB_BC : Folders :=
  mkFolders [ mkXlsxFile "ab.xlsx" (Ok table_AB);
              mkXlsxFile "bc.xlsx" (Ok table_BC) ] [] [].

(** Five columns; one row holds exactly one value in five, the next none. *)
Definition sparse_sheet : DataFrame :=
  sheet [ [Str "x"; NaN; NaN; NaN; NaN];
          [NaN; NaN; NaN; NaN; NaN];
          [Str "1"; Str "2"; Str "3"; Str "4"; Str "5"] ].

(** A folder where nothing survives: one file that cannot be read, one
    that reads as an empty frame. *)
Definition nothing_survives : Folders :=
  mkFolders [ mkXlsxFile "bad.xlsx" (Raise ReadError);
              mkXlsxFile "blank.xlsx" (Ok (mkDataFrame [] [])) ] [] [].

(** An unreadable file and an empty one next to a good one. *)
Definition mixed_folder : Folders :=
  mkFolders [ mkXlsxFile "bad.xlsx" (Raise ReadError);
              mkXlsxFile "ab.xlsx" (Ok table_AB);
              mkXlsxFile "blank.xlsx" (Ok (mkDataFrame [] [])) ] [] [].

(* ===================================================================== *)
(** ** [main] *)
(* ===================================================================== *)

(** What [main] reports at the end. *)
Inductive Report : Type :=
| Completed (output_file : string)
| NoFilesProcessed.

Section Main.

Variable timestamp : string.
Variable can_move : string -> bool.

(** [result = compile_xlsx_to_csv()] with the default arguments, the
    output folder ["CSV"] among them, then [if result:], which a path
    passes unless it is the empty string. *)
Definition main (fs : Folders) : Result (Folders * Report) :=
  match compile_xlsx_to_csv "CSV" timestamp can_move fs None with
  | Ok (fs', result) =>
      match result with
      | Some path =>
          if negb (String.eqb path "") then Ok (fs', Completed path)
          else Ok (fs', NoFilesProcessed)
      | None => Ok (fs', NoFilesProcessed)
      end
  | Raise e => Raise e
  end.

End Main.

(* ===================================================================== *)
(** ** Vocabulary of the statements *)
(* ===================================================================== *)

(** The same cell with its text in capitals. *)
Definition upper_cell (c : Cell) : Cell :=
  match c with
  | Str s => Str (Py.upper s)
  | _ => c
  end.

Definition upper_frame (df : DataFrame) : DataFrame :=
  mkDataFrame (columns df) (map (map upper_cell) (rows df)).

(** No cell of the row holds a keyword of the no-header branch, whatever
    the letter case. *)
Definition mentions_no_keyword (r : Row) : bool :=
  forallb (fun kw => negb (row_mentions (Py.upper kw) r))
    metadata_keywords_general.

(** The row holds a value. *)
Definition has_value (r : Row) : bool := existsb notna r.

(** The text holds no space. *)
Fixpoint no_space (s : string) : bool :=
  match s with
  | EmptyString => true
  | String c s' => negb (Ascii.eqb c " ") && no_space s'
  end.

(** Every row is as wide as the header. *)
Definition rectangular (df : DataFrame) : bool :=
  forallb (fun r => (List.length r =? List.length (columns df))%nat) (rows df).

(** The first header cell labels two columns. *)
Definition dup_header_sheet : DataFrame :=
  sheet [ [Str "INVOICE"; Str "INVOICE"; Str "AMOUNT"];
          [Str "1001"; Str "1002"; Str "50.00"] ].

(** A title, a header row, and nothing but a blank row below. *)
Definition header_only_sheet : DataFrame :=
  sheet [ [Str "Billing"];
          [Str "INVOICE"; Str "AMOUNT"];
          [NaN; NaN] ].

(** A title counting one indicator, then a header row in small letters
    with a missing cell in it. *)
Definition lower_gap_sheet : DataFrame :=
  sheet [ [Str "Monthly billing summary"];
          [Str "Invoice no"; NaN; Str "customer"];
          [Str "1001"; NaN; Str "Acme"] ].

(** The header row in small letters. *)
Definition small_letters_sheet : DataFrame :=
  sheet [ [Str "invoice"; Str "customer"];
          [Str "1001"; Str "Acme"] ].

(** A ready folder that also holds a file which is no workbook. *)
Definition folder_with_notes : Folders :=
  mkFolders [ mkXlsxFile "notes.txt" (Ok table_BC);
              mkXlsxFile "ab.xlsx" (Ok table_AB) ] [] [].


(** The move of ab.xlsx fails, every other move goes through. *)
Definition all_but_ab (n : string) : bool := negb (String.eqb n "ab.xlsx").

(* ===================================================================== *)
(** ** Facts on strings *)
(* ===================================================================== *)

Lemma upper_ascii_not_lower (c : ascii) : Py.is_lower (Py.upper_ascii c) = false.
Proof.
  destruct c as [[] [] [] [] [] [] [] []]; reflexivity.
Qed.

Lemma upper_has_no_lower (s : string) : Py.has_lower (Py.upper s) = false.
Proof.
  induction s as [|c s IH]; simpl.
  - reflexivity.
  - now rewrite upper_ascii_not_lower, IH.
Qed.

Lemma startswith_has_lower (p s : string) :
  Py.startswith p s = true -> Py.has_lower p = true -> Py.has_lower s = true.
Proof.
  revert s. induction p as [|a p IH]; intros [|b s]; simpl; try discriminate.
  intros Hpre Hlow.
  apply andb_true_iff in Hpre as [Hab Hpre].
  apply Ascii.eqb_eq in Hab; subst b.
  apply orb_true_iff in Hlow as [Hlow | Hlow].
  - now rewrite Hlow.
  - rewrite (IH s Hpre Hlow). apply orb_true_r.
Qed.

Lemma contains_has_lower (p s : string) :
  Py.contains p s = true -> Py.has_lower p = true -> Py.has_lower s = true.
Proof.
  intros Hc Hlow. induction s as [|b s IH].
  - simpl in Hc. rewrite orb_false_r in Hc.
    now apply (startswith_has_lower p "").
  - simpl in Hc. apply orb_true_iff in Hc as [Hc | Hc].
    + now apply (startswith_has_lower p (String b s)).
    + simpl. rewrite (IH Hc). apply orb_true_r.
Qed.

(** A pattern with a lower-case letter is never found in upper-cased text. *)
Lemma lower_pattern_misses_upper (p s : string) :
  Py.has_lower p = true -> Py.contains p (Py.upper s) = false.
Proof.
  intros Hlow. destruct (Py.contains p (Py.upper s)) eqn:Hc; [|reflexivity].
  pose proof (contains_has_lower _ _ Hc Hlow) as H.
  now rewrite upper_has_no_lower in H.
Qed.

(* ===================================================================== *)
(** ** Facts on lists and frames *)
(* ===================================================================== *)

Lemma existsb_false_filter {A : Type} (f : A -> bool) (l : list A) :
  existsb f l = false -> filter f l = [].
Proof.
  induction l as [|x l IH]; simpl; [reflexivity|].
  intros H. apply orb_false_iff in H as [Hx Hl].
  rewrite Hx. auto.
Qed.

Lemma Cell_eqb_refl (c : Cell) : Cell_eqb c c = true.
Proof.
  unfold Cell_eqb. destruct (Cell_eq_dec c c); congruence.
Qed.

Lemma Cell_eqb_eq (a b : Cell) : Cell_eqb a b = true <-> a = b.
Proof.
  unfold Cell_eqb. destruct (Cell_eq_dec a b); split; congruence.
Qed.

Lemma label_in_In (c : Cell) (l : list Cell) : label_in c l = true <-> In c l.
Proof.
  unfold label_in. rewrite existsb_exists. split.
  - intros [x [Hin Heq]]. apply Cell_eqb_eq in Heq. now subst.
  - intros Hin. exists c. split; [assumption | apply Cell_eqb_refl].
Qed.

Lemma label_in_false (c : Cell) (l : list Cell) : label_in c l = false <-> ~ In c l.
Proof.
  rewrite <- label_in_In. destruct (label_in c l); split; congruence.
Qed.

Lemma select_rows_filter (f : Row -> bool) (rs : list Row) :
  select_rows (map f rs) rs = filter f rs.
Proof.
  induction rs as [|r rs IH]; simpl; [reflexivity|].
  destruct (f r); now rewrite IH.
Qed.

Lemma select_rows_negb_map {A : Type} (g : A -> bool) (h : Row -> A) (rs : list Row) :
  select_rows (map negb (map g (map h rs))) rs = filter (fun r => negb (g (h r))) rs.
Proof.
  rewrite !map_map. apply (select_rows_filter (fun r => negb (g (h r)))).
Qed.

(* ===================================================================== *)
(** ** Header detection *)
(* ===================================================================== *)

(** The guard [any(...)] of the loop body changes nothing: the row stops
    the search exactly when two indicators or more are counted. *)
Lemma is_header_row_spec (row : Row) :
  is_header_row row = true <-> 2 <= indicators_found (row_str row).
Proof.
  unfold is_header_row, indicators_found.
  destruct (existsb _ header_indicators) eqn:E.
  - apply Nat.leb_le.
  - rewrite (existsb_false_filter _ _ E). simpl. split; [discriminate | lia].
Qed.

Lemma is_header_row_false (row : Row) :
  is_header_row row = false <-> indicators_found (row_str row) < 2.
Proof.
  pose proof (is_header_row_spec row) as H.
  destruct (is_header_row row); split; intros Hlt; try reflexivity; try discriminate.
  - assert (2 <= indicators_found (row_str row)) by (apply H; reflexivity). lia.
  - destruct (Nat.le_gt_cases 2 (indicators_found (row_str row))) as [Hge | Hgt];
      [apply H in Hge; discriminate | assumption].
Qed.

Lemma find_header_Some (rs : list Row) (idx k : nat) :
  find_header idx rs = Some k <->
  exists j row, k = idx + j /\ nth_error rs j = Some row
    /\ 2 <= indicators_found (row_str row)
    /\ forall i r, i < j -> nth_error rs i = Some r ->
         indicators_found (row_str r) < 2.
Proof.
  revert idx. induction rs as [|row rs IH]; intros idx; simpl.
  - split; [discriminate|].
    intros [j [r [_ [Hnth _]]]]. destruct j; discriminate.
  - destruct (is_header_row row) eqn:E.
    + split.
      * intros H. injection H as <-. exists 0, row.
        repeat split; [lia | now apply is_header_row_spec | intros; lia].
      * intros [j [r [-> [Hnth [_ Hmin]]]]].
        destruct j as [|j]; [f_equal; lia|].
        apply is_header_row_spec in E.
        specialize (Hmin 0 row (Nat.lt_0_succ j) eq_refl). lia.
    + rewrite IH. split.
      * intros [j [r [-> [Hnth [Hr Hmin]]]]]. exists (S j), r.
        repeat split; [lia | assumption | assumption |].
        intros [|i] r' Hi Hr'; simpl in Hr'.
        -- injection Hr' as <-. now apply is_header_row_false.
        -- apply (Hmin i r'); [lia | assumption].
      * intros [j [r [-> [Hnth [Hr Hmin]]]]].
        destruct j as [|j]; simpl in Hnth.
        -- injection Hnth as <-. apply is_header_row_false in E. lia.
        -- exists j, r. repeat split; [lia | assumption | assumption |].
           intros i r' Hi Hr'. apply (Hmin (S i) r'); [lia | assumption].
Qed.

Lemma find_header_None (rs : list Row) (idx : nat) :
  find_header idx rs = None <->
  forall row, In row rs -> indicators_found (row_str row) < 2.
Proof.
  revert idx. induction rs as [|row rs IH]; intros idx; simpl.
  - split; [intros _ r [] | reflexivity].
  - destruct (is_header_row row) eqn:E.
    + split; [discriminate|]. intros H.
      apply is_header_row_spec in E. specialize (H row (or_introl eq_refl)). lia.
    + rewrite IH. apply is_header_row_false in E. split.
      * intros H r [<- | Hin]; auto.
      * intros H r Hin. apply H. now right.
Qed.

Lemma find_header_bound (rs : list Row) (idx k : nat) :
  find_header idx rs = Some k -> idx <= k < idx + List.length rs.
Proof.
  rewrite find_header_Some. intros [j [row [-> [Hnth _]]]].
  assert (j < List.length rs) by (apply nth_error_Some; congruence). lia.
Qed.

(** C5 (as the code has it).  A frame with zero rows comes back from
    [clean_dataframe] as it went in: no rows, and the column names it
    carried. *)
Theorem clean_dataframe_zero_rows_unchanged (df : DataFrame) :
  rows df = [] ->
  clean_dataframe df = Ok df.
Proof.
  intros H. unfold clean_dataframe, empty. now rewrite H.
Qed.

Lemma clean_dataframe_zero_rows_unchanged_witness :
  rows named_empty = [] /\ clean_dataframe named_empty = Ok named_empty.
Proof.
  split; [reflexivity | apply (clean_dataframe_zero_rows_unchanged named_empty); reflexivity].
Defined.

(** C5 fails as stated: the zero-row frame with the column names INVOICE
    and AMOUNT keeps both names. *)
Lemma clean_dataframe_zero_rows_keeps_columns :
  rows named_empty = []
  /\ clean_dataframe named_empty
     = Ok (mkDataFrame [Str "INVOICE"; Str "AMOUNT"] [])
  /\ clean_dataframe named_empty <> Ok (mkDataFrame [] []).
Proof.
  split; [reflexivity | split; [reflexivity | discriminate]].
Qed.

(* ===================================================================== *)
(** ** The header-found branch *)
(* ===================================================================== *)

Lemma header_path_columns (df : DataFrame) (k : nat) (out : DataFrame) :
  header_path df k = Ok out -> columns out = nth k (rows df) [].
Proof.
  unfold header_path, dropna_all. cbn [columns rows].
  destruct (negb (empty _)).
  - destruct (nth k (rows df) []) as [|first_col rest] eqn:Hhdr.
    + intros H. now injection H as <-.
    + destruct (label_in first_col (first_col :: rest)).
      * destruct (getitem_str _ first_col) as [series | e].
        -- intros H. now injection H as <-.
        -- discriminate.
      * intros H. now injection H as <-.
  - intros H. now injection H as <-.
Qed.

Lemma header_path_returns (df : DataFrame) (k : nat) :
  label_count (nth k (rows df) []) (hd NaN (nth k (rows df) [])) = 1 ->
  exists out, header_path df k = Ok out.
Proof.
  unfold header_path, dropna_all. cbn [columns rows].
  destruct (negb (empty _)); [|eexists; reflexivity].
  destruct (nth k (rows df) []) as [|first_col rest]; [eexists; reflexivity|].
  cbn [hd]. intros Hone.
  destruct (label_in first_col (first_col :: rest)); [|eexists; reflexivity].
  unfold getitem_str. cbn [columns rows]. rewrite Hone.
  cbn [index_of]. rewrite Cell_eqb_refl. eexists; reflexivity.
Qed.

(** C4 (as the code has it).  In the header-found branch the column names
    of the result are the cells of the header row, position by position:
    whatever [clean_dataframe] returns carries exactly that row as its
    columns, a missing header cell stays a missing column name, and the
    call does return when the first header cell labels one column only. *)
Theorem header_found_columns_are_header_cells (df : DataFrame) (k : nat) :
  empty df = false ->
  header_row_idx df = Some k ->
  (forall out, clean_dataframe df = Ok out ->
     columns out = nth k (rows df) []
     /\ forall i, nth i (nth k (rows df) []) NaN = NaN ->
                  nth i (columns out) NaN = NaN)
  /\ (label_count (nth k (rows df) []) (hd NaN (nth k (rows df) [])) = 1 ->
      exists out, clean_dataframe df = Ok out
                  /\ columns out = nth k (rows df) []).
Proof.
  intros Hne Hk. unfold clean_dataframe. rewrite Hne, Hk. split.
  - intros out Hout. apply header_path_columns in Hout.
    split; [assumption | intros i Hi; now rewrite Hout].
  - intros Hone. destruct (header_path_returns df k Hone) as [out Hout].
    exists out. split; [assumption | now apply header_path_columns].
Qed.

Lemma header_found_columns_are_header_cells_witness :
  exists out, clean_dataframe gap_sheet = Ok out
              /\ columns out = [Str "INVOICE"; NaN; Str "AMOUNT"].
Proof.
  apply (proj2 (header_found_columns_are_header_cells gap_sheet 0
                  eq_refl eq_refl)).
  reflexivity.
Defined.

(** C4 fails as stated: the header row INVOICE, (missing), AMOUNT is found
    at index 0, its cell 1 is missing, and column 1 of the result is the
    missing value, not a string such as "column_1". *)
Lemma missing_header_cell_gets_no_placeholder :
  header_row_idx gap_sheet = Some 0
  /\ nth 1 (nth 0 (rows gap_sheet) []) NaN = NaN
  /\ clean_dataframe gap_sheet
     = Ok (mkDataFrame [Str "INVOICE"; NaN; Str "AMOUNT"]
             [ [Str "1001"; Str "Acme"; Str "50.00"] ])
  /\ forall out, clean_dataframe gap_sheet = Ok out ->
       notna (nth 1 (columns out) NaN) = false
       /\ nth 1 (columns out) NaN <> Str "column_1".
Proof.
  split; [reflexivity | split; [reflexivity | split; [reflexivity|]]].
  intros out H. vm_compute in H. injection H as <-.
  split; [reflexivity | discriminate].
Qed.

(** Of the eight keywords of the header-found branch only TOTAL can ever
    match: the text searched is upper-cased, the pattern is not. *)
Lemma header_mask_only_total (c : Cell) :
  header_mask c = Py.contains "TOTAL" (Py.upper (str c)).
Proof.
  unfold header_mask, re_search_any, metadata_keywords_header.
  cbn [existsb].
  rewrite (lower_pattern_misses_upper "Monthly Billing Summary" _ eq_refl),
    (lower_pattern_misses_upper "Report" _ eq_refl),
    (lower_pattern_misses_upper "Summary" _ eq_refl),
    (lower_pattern_misses_upper "Generated" _ eq_refl),
    (lower_pattern_misses_upper "Period" _ eq_refl),
    (lower_pattern_misses_upper "Currency" _ eq_refl),
    (lower_pattern_misses_upper "Page" _ eq_refl).
  cbn [orb]. now rewrite !orb_false_r.
Qed.

(** C3, the code at the failing input.  Below the header row of
    [report_sheet] come the rows "Report", "Monthly Billing Summary",
    "1001" and "TOTAL"; the header-found branch removes the TOTAL row only
    and keeps the rows whose first cell is "Report" and "Monthly Billing
    Summary". *)
Theorem header_found_keeps_report_rows :
  header_row_idx report_sheet = Some 0
  /\ clean_dataframe report_sheet
     = Ok (mkDataFrame [Str "INVOICE"; Str "CUSTOMER"; Str "AMOUNT"]
             [ [Str "Report"; NaN; NaN];
               [Str "Monthly Billing Summary"; NaN; NaN];
               [Str "1001"; Str "Acme"; Str "50.00"] ])
  /\ header_mask (Str "Report") = false
  /\ header_mask (Str "Monthly Billing Summary") = false.
Proof.
  repeat split; reflexivity.
Qed.

(** With a first header cell that labels one column, the rows that the
    header-found branch returns are the rows below the header that hold a
    value and whose first cell, upper-cased, does not contain TOTAL. *)
Lemma header_path_rows (df : DataFrame) (k : nat) :
  label_count (nth k (rows df) []) (hd NaN (nth k (rows df) [])) = 1 ->
  exists out, header_path df k = Ok out
    /\ rows out
       = filter (fun r => negb (Py.contains "TOTAL" (Py.upper (str (nth 0 r NaN)))))
           (filter (existsb notna) (skipn (k + 1) (rows df))).
Proof.
  unfold header_path, dropna_all. cbn [columns rows].
  destruct (nth k (rows df) []) as [|first_col rest]; [discriminate|].
  cbn [hd]. intros Hone.
  assert (Hin : label_in first_col (first_col :: rest) = true)
    by (apply label_in_In; now left).
  rewrite Hin. unfold getitem_str. cbn [columns rows]. rewrite Hone.
  cbn [index_of]. rewrite Cell_eqb_refl.
  destruct (negb (empty _)) eqn:E.
  - eexists. split; [reflexivity|]. cbn [rows].
    rewrite select_rows_negb_map. apply filter_ext.
    intros r. now rewrite header_mask_only_total.
  - eexists. split; [reflexivity|]. cbn [rows].
    apply negb_false_iff in E. unfold empty in E. cbn [columns rows] in E.
    cbn [List.length] in E. rewrite orb_false_r in E.
    apply Nat.eqb_eq in E. apply length_zero_iff_nil in E. now rewrite E.
Qed.

(** The other branch upper-cases the keyword before the search and does
    remove a row that mentions "Report". *)
Lemma general_path_drops_report_rows :
  header_row_idx report_without_header = None
  /\ clean_dataframe report_without_header
     = Ok (mkDataFrame [Int 0; Int 1] [ [Str "1001"; Str "Acme"] ]).
Proof.
  split; reflexivity.
Qed.

(* ===================================================================== *)
(** ** The threshold of the other branch *)
(* ===================================================================== *)

Section Threshold.

Local Open Scope Z_scope.

Lemma pow2_half (s : Z) : 0 < s -> 2 ^ s = 2 * 2 ^ (s - 1).
Proof.
  intros Hs. replace s with (Z.succ (s - 1)) at 1 by lia.
  now rewrite Z.pow_succ_r by lia.
Qed.

(** Rounding moves a number by half a unit at most. *)
Lemma rne_near (m s : Z) :
  0 < s -> 0 <= m ->
  2 * (Float64.rne m s * 2 ^ s) <= 2 * m + 2 ^ s
  /\ 2 * m <= 2 * (Float64.rne m s * 2 ^ s) + 2 ^ s.
Proof.
  intros Hs Hm. unfold Float64.rne.
  pose proof (pow2_half s Hs) as HP.
  assert (Hh : 0 < 2 ^ (s - 1)) by (apply Z.pow_pos_nonneg; lia).
  pose proof (Z.div_mod m (2 ^ s) ltac:(lia)) as Hdm.
  pose proof (Z.mod_pos_bound m (2 ^ s) ltac:(lia)) as Hr.
  set (q := m / 2 ^ s) in *. set (r := m mod 2 ^ s) in *.
  set (h := 2 ^ (s - 1)) in *. set (P := 2 ^ s) in *.
  destruct (r <? h) eqn:E1; [apply Z.ltb_lt in E1 | apply Z.ltb_ge in E1].
  - nia.
  - destruct (h <? r) eqn:E2; [apply Z.ltb_lt in E2 | apply Z.ltb_ge in E2].
    + nia.
    + destruct (Z.even q); nia.
Qed.

(** A number less than half a unit above a multiple of the unit rounds
    down to it. *)
Lemma rne_exact (a r s : Z) :
  0 < s -> 0 <= r -> 2 * r < 2 ^ s ->
  Float64.rne (a * 2 ^ s + r) s = a.
Proof.
  intros Hs Hr Hlt. unfold Float64.rne.
  pose proof (pow2_half s Hs) as HP.
  assert (Hh : 0 < 2 ^ (s - 1)) by (apply Z.pow_pos_nonneg; lia).
  rewrite Z.div_add_l by lia. rewrite Z.add_comm, Z.mod_add by lia.
  rewrite Z.div_small, Z.mod_small by lia.
  replace (r <? 2 ^ (s - 1)) with true by (symmetry; apply Z.ltb_lt; lia).
  lia.
Qed.

Lemma of_int_exact (n : Z) : 0 <= n < 2 ^ 50 -> Float64.of_int n = (n, 0).
Proof.
  intros Hn. unfold Float64.of_int, Float64.round53.
  assert (Z.log2 n < 50).
  { destruct (Z.eq_dec n 0) as [->|]; [reflexivity|].
    apply Z.log2_lt_pow2; lia. }
  replace (Z.log2 n - 52 <=? 0) with true by (symmetry; apply Z.leb_le; lia).
  reflexivity.
Qed.

(** The double [n * 0.2] sits below or at an integer [k] exactly when
    [n / 5] does: the rounding of the literal and of the product never
    crosses an integer, and lands on [n / 5] when 5 divides [n]. *)
Lemma thresh_exact (n k : Z) :
  0 <= n < 2 ^ 50 -> 0 <= k ->
  Float64.int_ge k (Float64.mul (Float64.of_int n) Float64.c02)
  = (n <=? 5 * k).
Proof.
  intros Hn Hk. rewrite (of_int_exact n Hn).
  unfold Float64.mul, Float64.c02. cbn [fst snd]. unfold Float64.round53.
  set (m := n * 7205759403792794).
  destruct (Z.eq_dec n 0) as [->|Hn0].
  { cbn. destruct k; reflexivity || (exfalso; lia). }
  assert (Hm : 2 ^ 52 <= m < 2 ^ 103) by (unfold m; lia).
  pose proof (Z.log2_spec m ltac:(lia)) as Hl.
  assert (Hl1 : 52 <= Z.log2 m) by (apply Z.log2_le_pow2; lia).
  assert (Hl2 : Z.log2 m < 103) by (apply Z.log2_lt_pow2; lia).
  destruct (Z.log2 m - 52 <=? 0) eqn:Es;
    [apply Z.leb_le in Es | apply Z.leb_gt in Es].
  - (* the product fits 53 bits: nothing to round *)
    assert (Z.log2 m = 52) by lia.
    replace (Z.succ (Z.log2 m)) with 53 in Hl by lia.
    cbn [Float64.int_ge]. change (0 <=? 0 + -55) with false. cbv iota.
    change (- (0 + -55)) with 55.
    destruct (n <=? 5 * k) eqn:E;
      [apply Z.leb_le in E; apply Z.leb_le
      | apply Z.leb_gt in E; apply Z.leb_gt];
      unfold m in *; lia.
  - set (s := Z.log2 m - 52) in *.
    cbn [Float64.int_ge].
    replace (0 <=? 0 + -55 + s) with false by (symmetry; apply Z.leb_gt; lia).
    replace (- (0 + -55 + s)) with (55 - s) by lia.
    assert (HP : 2 ^ 55 = 2 ^ (55 - s) * 2 ^ s).
    { rewrite <- Z.pow_add_r by lia. f_equal. lia. }
    assert (HPs : 0 < 2 ^ s) by (apply Z.pow_pos_nonneg; lia).
    assert (HQs : 0 < 2 ^ (55 - s)) by (apply Z.pow_pos_nonneg; lia).
    assert (Hlo : 2 ^ 52 * 2 ^ s <= m).
    { rewrite <- Z.pow_add_r by lia.
      replace (52 + s) with (Z.log2 m) by lia. lia. }
    assert (Hhi : m < 2 ^ 53 * 2 ^ s).
    { rewrite <- Z.pow_add_r by lia.
      replace (53 + s) with (Z.succ (Z.log2 m)) by lia. lia. }
    destruct (Z.compare_spec n (5 * k)) as [Heq | Hlt | Hgt].
    + (* exactly one fifth *)
      replace (n <=? 5 * k) with true by (symmetry; apply Z.leb_le; lia).
      apply Z.leb_le.
      assert (Hm' : m = (k * 2 ^ (55 - s)) * 2 ^ s + 2 * k).
      { unfold m. rewrite <- Z.mul_assoc, <- HP. lia. }
      assert (H4k : 2 * (2 * k) < 2 ^ s).
      { rewrite Hm' in Hhi. rewrite <- Z.mul_assoc, <- HP in Hhi. lia. }
      rewrite Hm', rne_exact; lia.
    + replace (n <=? 5 * k) with true by (symmetry; apply Z.leb_le; lia).
      apply Z.leb_le.
      destruct (rne_near m s ltac:(lia) ltac:(lia)) as [Hup _].
      set (q := Float64.rne m s) in *.
      enough (q * 2 ^ s <= k * 2 ^ (55 - s) * 2 ^ s) by nia.
      rewrite <- Z.mul_assoc, <- HP.
      set (X := q * 2 ^ s) in *. unfold m in *. lia.
    + replace (n <=? 5 * k) with false by (symmetry; apply Z.leb_gt; lia).
      apply Z.leb_gt.
      destruct (rne_near m s ltac:(lia) ltac:(lia)) as [_ Hdn].
      set (q := Float64.rne m s) in *.
      enough (k * 2 ^ (55 - s) * 2 ^ s < q * 2 ^ s) by nia.
      rewrite <- Z.mul_assoc, <- HP.
      set (X := q * 2 ^ s) in *. unfold m in *. lia.
Qed.

End Threshold.

Lemma drop_keywords_columns (kws : list string) (df : DataFrame) :
  columns (fold_left drop_keyword kws df) = columns df.
Proof.
  revert df. induction kws as [|kw kws IH]; intros df; simpl.
  - reflexivity.
  - now rewrite IH.
Qed.

(** C7.  In the branch taken when no header row is found, a row that
    passed the keyword filter is dropped exactly when five times its
    count of non-missing cells is less than the number of columns, that is
    when the count is strictly less than 20% of the column count; a row at
    exactly 20% is retained.  The threshold is the double
    [len(columns) * 0.2] of the source, not an exact fifth. *)
Theorem general_path_drops_below_fifth (df : DataFrame) :
  (Z.of_nat (List.length (columns df)) < 2 ^ 50)%Z ->
  let kept := fold_left drop_keyword metadata_keywords_general df in
  let ncols := Z.of_nat (List.length (columns df)) in
  (empty df = false -> header_row_idx df = None ->
   clean_dataframe df = Ok (general_path df))
  /\ rows (general_path df)
     = filter (fun r => (ncols <=? 5 * count_notna r)%Z) (rows kept)
  /\ (forall r, In r (rows kept) ->
        (~ In r (rows (general_path df)) <-> (5 * count_notna r < ncols)%Z))
  /\ (forall r, In r (rows kept) -> (5 * count_notna r = ncols)%Z ->
        In r (rows (general_path df))).
Proof.
  intros Hbound kept ncols.
  assert (Hrows : rows (general_path df)
     = filter (fun r => (ncols <=? 5 * count_notna r)%Z) (rows kept)).
  { unfold general_path, dropna_thresh, thresh. cbn [rows].
    rewrite drop_keywords_columns. apply filter_ext. intros r.
    apply thresh_exact; unfold count_notna; lia. }
  split; [|split; [exact Hrows | split]].
  - intros Hne Hnone. unfold clean_dataframe. now rewrite Hne, Hnone.
  - intros r Hr. rewrite Hrows, filter_In, Z.leb_le. split.
    + intros Hnot. destruct (Z.lt_ge_cases (5 * count_notna r) ncols) as [|Hge];
        [assumption | exfalso; apply Hnot; split; [assumption | lia]].
    + intros Hlt [_ Hle]. lia.
  - intros r Hr Heq. rewrite Hrows, filter_In, Z.leb_le. split; [assumption | lia].
Qed.

Lemma general_path_drops_below_fifth_witness :
  rows (general_path sparse_sheet)
  = [ [Str "x"; NaN; NaN; NaN; NaN];
      [Str "1"; Str "2"; Str "3"; Str "4"; Str "5"] ].
Proof.
  assert (Hbound : (Z.of_nat (List.length (columns sparse_sheet)) < 2 ^ 50)%Z)
    by (vm_compute; reflexivity).
  rewrite (proj1 (proj2 (general_path_drops_below_fifth sparse_sheet Hbound))).
  reflexivity.
Defined.

(* ===================================================================== *)
(** ** Labels, rows and [pd.concat] *)
(* ===================================================================== *)

Lemma unique_labels_NoDup (l : list Cell) : unique_labels l = true <-> NoDup l.
Proof.
  induction l as [|c l IH]; simpl.
  - split; [constructor | reflexivity].
  - rewrite andb_true_iff, negb_true_iff, label_in_false, IH. split.
    + intros [Hc Hl]. now constructor.
    + intros H. inversion H; subst. now split.
Qed.

Lemma labels_eqb_eq (a b : list Cell) : labels_eqb a b = true <-> a = b.
Proof.
  revert b. induction a as [|x a IH]; intros [|y b]; simpl;
    try (split; [reflexivity || discriminate | reflexivity || discriminate]).
  rewrite andb_true_iff, Cell_eqb_eq, IH. split.
  - intros [-> ->]. reflexivity.
  - intros H. injection H as -> ->. now split.
Qed.

Lemma index_of_Some (c : Cell) (l : list Cell) (i : nat) :
  index_of c l = Some i -> nth_error l i = Some c.
Proof.
  revert i. induction l as [|x l IH]; intros i; simpl; [discriminate|].
  destruct (Cell_eqb x c) eqn:E.
  - intros H. injection H as <-. apply Cell_eqb_eq in E. now subst.
  - destruct (index_of c l) as [j|]; [|discriminate].
    intros H. injection H as <-. simpl. now apply IH.
Qed.

Lemma index_of_None (c : Cell) (l : list Cell) :
  index_of c l = None <-> ~ In c l.
Proof.
  induction l as [|x l IH]; simpl.
  - split; [intros _ [] | reflexivity].
  - destruct (Cell_eqb x c) eqn:E.
    + apply Cell_eqb_eq in E.
      split; [discriminate | intros H; exfalso; apply H; now left].
    + assert (Hx : x <> c) by (intros ->; now rewrite Cell_eqb_refl in E).
      destruct (index_of c l) as [j|].
      * split; [discriminate|]. intros H. exfalso.
        assert (Hnone : @None nat = None) by reflexivity.
        assert (Hnot : ~ In c l) by (intros Hin; apply H; now right).
        apply IH in Hnot. discriminate.
      * split; [|reflexivity]. intros _ [Heq | Hin]; [contradiction|].
        now apply (proj1 IH).
Qed.

Lemma index_of_In (c : Cell) (l : list Cell) :
  In c l -> exists i, index_of c l = Some i.
Proof.
  intros Hin. destruct (index_of c l) as [i|] eqn:E.
  - now exists i.
  - apply index_of_None in E. contradiction.
Qed.

(** Reading a row laid out on [u] under one of the labels of [u] gives
    what the lay-out put there. *)
Lemma cell_at_map (f : Cell -> Cell) (u : list Cell) (c : Cell) :
  In c u -> cell_at u (map f u) c = f c.
Proof.
  intros Hin. unfold cell_at.
  destruct (index_of_In c u Hin) as [i Hi]. rewrite Hi.
  apply index_of_Some in Hi.
  assert (Hlt : i < List.length u) by (apply nth_error_Some; congruence).
  rewrite (nth_indep _ NaN (f NaN)) by (now rewrite length_map).
  rewrite map_nth. f_equal.
  now apply nth_error_nth.
Qed.

Lemma cell_at_absent (cols : list Cell) (r : Row) (c : Cell) :
  ~ In c cols -> cell_at cols r c = NaN.
Proof.
  intros H. unfold cell_at. apply index_of_None in H. now rewrite H.
Qed.

Lemma cell_at_head (c : Cell) (cols : list Cell) (x : Cell) (r : Row) :
  cell_at (c :: cols) (x :: r) c = x.
Proof.
  unfold cell_at. simpl. now rewrite Cell_eqb_refl.
Qed.

Lemma cell_at_tail (c c' : Cell) (cols : list Cell) (x : Cell) (r : Row) :
  c <> c' -> cell_at (c :: cols) (x :: r) c' = cell_at cols r c'.
Proof.
  intros Hne. unfold cell_at. simpl.
  destruct (Cell_eqb c c') eqn:E; [apply Cell_eqb_eq in E; contradiction|].
  now destruct (index_of c' cols).
Qed.

(** A row laid out on its own distinct labels is itself. *)
Lemma reindex_row_self (cols : list Cell) (r : Row) :
  NoDup cols -> List.length r = List.length cols ->
  reindex_row cols cols r = r.
Proof.
  unfold reindex_row. revert r.
  induction cols as [|c cols IH]; intros [|x r] Hnd Hlen; simpl in *;
    try discriminate; [reflexivity|].
  inversion Hnd as [|? ? Hc Hnd']; subst.
  rewrite cell_at_head. f_equal.
  rewrite <- (IH r Hnd') at 2 by lia.
  apply map_ext_in. intros c' Hin.
  apply cell_at_tail. intros ->. contradiction.
Qed.

Lemma well_formed_spec (df : DataFrame) :
  well_formed df = true <->
  NoDup (columns df)
  /\ forall r, In r (rows df) -> List.length r = List.length (columns df).
Proof.
  unfold well_formed.
  rewrite andb_true_iff, unique_labels_NoDup, forallb_forall.
  split; intros [Hnd Hrows]; (split; [assumption|]);
    intros r Hr; apply Nat.eqb_eq || (apply Nat.eqb_eq; auto); auto.
Qed.

Lemma reindex_self (df : DataFrame) :
  well_formed df = true -> reindex (columns df) df = rows df.
Proof.
  intros [Hnd Hrows]%well_formed_spec. unfold reindex.
  rewrite <- (map_id (rows df)) at 2.
  apply map_ext_in. intros r Hr. apply reindex_row_self; auto.
Qed.

Lemma length_reindex (u : list Cell) (df : DataFrame) :
  List.length (reindex u df) = List.length (rows df).
Proof.
  unfold reindex. apply length_map.
Qed.

Lemma flat_map_ext_In {A B : Type} (f g : A -> list B) (l : list A) :
  (forall a, In a l -> f a = g a) -> flat_map f l = flat_map g l.
Proof.
  induction l as [|a l IH]; intros H; simpl; [reflexivity|].
  rewrite (H a (or_introl eq_refl)), IH; [reflexivity|].
  intros b Hb. apply H. now right.
Qed.

Lemma length_flat_map_reindex (u : list Cell) (dfs : list DataFrame) :
  List.length (flat_map (reindex u) dfs) = List.length (flat_map rows dfs).
Proof.
  induction dfs as [|d dfs IH]; simpl; [reflexivity|].
  now rewrite !length_app, length_reindex, IH.
Qed.

Lemma union_nil (l : list Cell) : union [] l = l.
Proof.
  unfold union. simpl. induction l as [|c l IH]; simpl; [reflexivity|].
  now rewrite IH.
Qed.

Lemma union_self (l : list Cell) : union l l = l.
Proof.
  unfold union. rewrite <- app_nil_r. f_equal.
  apply existsb_false_filter. apply not_true_iff_false.
  rewrite existsb_exists. intros [c [Hin Hc]].
  apply negb_true_iff in Hc. apply label_in_false in Hc. contradiction.
Qed.

Lemma union_In (acc other : list Cell) (c : Cell) :
  In c (union acc other) <-> In c acc \/ In c other.
Proof.
  unfold union. rewrite in_app_iff, filter_In, negb_true_iff, label_in_false.
  split.
  - intros [H | [H _]]; auto.
  - intros [H | H]; [now left|].
    destruct (in_dec Cell_eq_dec c acc); [now left | now right].
Qed.

Lemma union_NoDup (acc other : list Cell) :
  NoDup acc -> NoDup other -> NoDup (union acc other).
Proof.
  intros Ha Ho. unfold union. apply NoDup_app.
  - assumption.
  - now apply NoDup_filter.
  - intros c Hc [_ Hk]%filter_In.
    apply negb_true_iff, label_in_false in Hk. contradiction.
Qed.

Lemma fold_union_NoDup (dfs : list DataFrame) (acc : list Cell) :
  NoDup acc -> (forall d, In d dfs -> NoDup (columns d)) ->
  NoDup (fold_left (fun acc df => union acc (columns df)) dfs acc).
Proof.
  revert acc. induction dfs as [|d dfs IH]; intros acc Ha Hd; simpl.
  - assumption.
  - apply IH.
    + apply union_NoDup; [assumption | apply Hd; now left].
    + intros d' Hd'. apply Hd. now right.
Qed.

Lemma fold_union_In (dfs : list DataFrame) (acc : list Cell) (c : Cell) :
  In c (fold_left (fun acc df => union acc (columns df)) dfs acc) <->
  In c acc \/ exists d, In d dfs /\ In c (columns d).
Proof.
  revert acc. induction dfs as [|d dfs IH]; intros acc; simpl.
  - split; [now left | intros [H | [d [[] _]]]; assumption].
  - rewrite IH, union_In. split.
    + intros [[H | H] | [d' [Hd' Hc]]]; [now left | right | right].
      * exists d. split; [now left | assumption].
      * exists d'. split; [now right | assumption].
    + intros [H | [d' [[<- | Hd'] Hc]]].
      * left. now left.
      * left. now right.
      * right. now exists d'.
Qed.


Lemma fold_union_same (dfs : list DataFrame) (cols : list Cell) :
  (forall d, In d dfs -> columns d = cols) ->
  fold_left (fun acc df => union acc (columns df)) dfs cols = cols.
Proof.
  induction dfs as [|d dfs IH]; intros H; simpl.
  - reflexivity.
  - rewrite (H d (or_introl eq_refl)), union_self. apply IH.
    intros d' Hd'. apply H. now right.
Qed.

(** What [pd.concat] returns on well-formed frames: the first-seen union
    of the labels, and every frame's rows laid out on it, in order. *)
Lemma concat_spec (dfs : list DataFrame) (combined : DataFrame) :
  (forall d, In d dfs -> well_formed d = true) ->
  concat dfs = Ok combined ->
  columns combined = union_columns dfs
  /\ rows combined = flat_map (reindex (columns combined)) dfs.
Proof.
  intros Hwf. unfold concat. destruct dfs as [|d ds]; [discriminate|].
  destruct (forallb _ ds) eqn:Esame.
  - intros H. injection H as <-. cbn [columns rows].
    assert (Hcols : forall d', In d' (d :: ds) -> columns d' = columns d).
    { intros d' [<- | Hd']; [reflexivity|].
      rewrite forallb_forall in Esame. now apply labels_eqb_eq, Esame. }
    split.
    + unfold union_columns. cbn [fold_left]. rewrite union_nil.
      symmetry. apply fold_union_same. intros d' Hd'. apply Hcols. now right.
    + change (flat_map rows (d :: ds) = flat_map (reindex (columns d)) (d :: ds)).
      apply flat_map_ext_In. intros d' Hd'.
      rewrite <- (Hcols d' Hd'). symmetry. apply reindex_self. now apply Hwf.
  - destruct (forallb _ (d :: ds)); [|discriminate].
    intros H. injection H as <-. now split.
Qed.

Lemma concat_returns (dfs : list DataFrame) :
  dfs <> [] -> (forall d, In d dfs -> well_formed d = true) ->
  exists combined, concat dfs = Ok combined.
Proof.
  intros Hne Hwf. unfold concat. destruct dfs as [|d ds]; [contradiction|].
  destruct (forallb _ ds); [eexists; reflexivity|].
  assert (Huniq : forallb (fun d' => unique_labels (columns d')) (d :: ds) = true).
  { apply forallb_forall. intros d' Hd'.
    apply Hwf in Hd'. unfold well_formed in Hd'.
    now apply andb_true_iff in Hd' as [Hu _]. }
  rewrite Huniq. eexists; reflexivity.
Qed.

Lemma concat_row_count (dfs : list DataFrame) (combined : DataFrame) :
  (forall d, In d dfs -> well_formed d = true) ->
  concat dfs = Ok combined ->
  List.length (rows combined) = List.length (flat_map rows dfs).
Proof.
  intros Hwf Hc. destruct (concat_spec dfs combined Hwf Hc) as [_ ->].
  apply length_flat_map_reindex.
Qed.

(* ===================================================================== *)
(** ** Column assignment *)
(* ===================================================================== *)

Lemma length_assign (l v : Cell) (cols : list Cell) (r : Row) :
  List.length (assign l v cols r) = List.length r.
Proof.
  revert r. induction cols as [|c cols IH]; intros [|x r]; simpl; auto.
Qed.

Lemma cell_at_assign (l v c : Cell) (cols : list Cell) (r : Row) :
  List.length r = List.length cols -> In c cols ->
  cell_at cols (assign l v cols r) c
  = if Cell_eqb c l then v else cell_at cols r c.
Proof.
  revert r. induction cols as [|c0 cols IH]; intros [|x r] Hlen Hin;
    simpl in Hlen; try discriminate; [destruct Hin|].
  cbn [assign]. destruct (Cell_eq_dec c0 c) as [-> | Hne].
  - now rewrite !cell_at_head.
  - rewrite !cell_at_tail by assumption.
    apply IH; [lia|]. destruct Hin as [Heq | Hin]; [contradiction | assumption].
Qed.

Lemma cell_at_snoc_old (l v c : Cell) (cols : list Cell) (r : Row) :
  List.length r = List.length cols -> In c cols ->
  cell_at (cols ++ [l]) (r ++ [v]) c = cell_at cols r c.
Proof.
  revert r. induction cols as [|c0 cols IH]; intros [|x r] Hlen Hin;
    simpl in Hlen; try discriminate; [destruct Hin|].
  cbn [app]. destruct (Cell_eq_dec c0 c) as [-> | Hne].
  - now rewrite !cell_at_head.
  - rewrite !cell_at_tail by assumption.
    apply IH; [lia|]. destruct Hin as [Heq | Hin]; [contradiction | assumption].
Qed.

Lemma cell_at_snoc_new (l v : Cell) (cols : list Cell) (r : Row) :
  List.length r = List.length cols -> ~ In l cols ->
  cell_at (cols ++ [l]) (r ++ [v]) l = v.
Proof.
  revert r. induction cols as [|c0 cols IH]; intros [|x r] Hlen Hnot;
    simpl in Hlen; try discriminate.
  - apply cell_at_head.
  - cbn [app]. rewrite cell_at_tail.
    + apply IH; [lia|]. intros Hin. apply Hnot. now right.
    + intros ->. apply Hnot. now left.
Qed.

(** After [df[l] = v], a row reads [v] under [l]... *)
Lemma cell_at_setitem_label (df : DataFrame) (l v : Cell) (r : Row) :
  List.length r = List.length (columns df) ->
  cell_at (columns (setitem df l v)) (setitem_row (columns df) l v r) l = v.
Proof.
  intros Hlen. unfold setitem, setitem_row. cbn [columns].
  destruct (label_in l (columns df)) eqn:E.
  - apply label_in_In in E. rewrite cell_at_assign by assumption.
    now rewrite Cell_eqb_refl.
  - apply label_in_false in E. now apply cell_at_snoc_new.
Qed.

(** ... and what it read before under the other labels of [df]. *)
Lemma cell_at_setitem_other (df : DataFrame) (l v c : Cell) (r : Row) :
  List.length r = List.length (columns df) -> c <> l -> In c (columns df) ->
  cell_at (columns (setitem df l v)) (setitem_row (columns df) l v r) c
  = cell_at (columns df) r c.
Proof.
  intros Hlen Hne Hin. unfold setitem, setitem_row. cbn [columns].
  destruct (label_in l (columns df)) eqn:E.
  - rewrite cell_at_assign by assumption.
    destruct (Cell_eqb c l) eqn:Ecl; [|reflexivity].
    apply Cell_eqb_eq in Ecl. contradiction.
  - now apply cell_at_snoc_old.
Qed.

Lemma setitem_columns_In (df : DataFrame) (l v c : Cell) :
  In c (columns (setitem df l v)) <-> c = l \/ In c (columns df).
Proof.
  unfold setitem. cbn [columns]. destruct (label_in l (columns df)) eqn:E.
  - apply label_in_In in E. split; [now right | intros [-> | H]; assumption].
  - rewrite in_app_iff. simpl. split.
    + intros [H | [H | []]]; [now right | now left].
    + intros [H | H]; [right; now left | now left].
Qed.

Lemma setitem_columns_new (df : DataFrame) (l v : Cell) :
  ~ In l (columns df) -> columns (setitem df l v) = columns df ++ [l].
Proof.
  intros H. apply label_in_false in H. unfold setitem. cbn [columns].
  now rewrite H.
Qed.

Lemma well_formed_setitem (df : DataFrame) (l v : Cell) :
  well_formed df = true -> well_formed (setitem df l v) = true.
Proof.
  rewrite !well_formed_spec. intros [Hnd Hrows].
  unfold setitem, setitem_row. cbn [columns rows].
  destruct (label_in l (columns df)) eqn:E.
  - split; [assumption|]. intros r' [r [<- Hr]]%in_map_iff.
    rewrite length_assign. now apply Hrows.
  - apply label_in_false in E. split.
    + apply NoDup_app; [assumption | repeat constructor; intros [] |].
      intros c Hc [<- | []]. contradiction.
    + intros r' [r [<- Hr]]%in_map_iff.
      rewrite !length_app. simpl. rewrite (Hrows r Hr). reflexivity.
Qed.

(* ===================================================================== *)
(** ** The loop over the files *)
(* ===================================================================== *)

Lemma process_files_fold (xs : list XlsxFile) (dfs : list DataFrame)
    (ps : list XlsxFile) :
  fold_left process_file xs (dfs, ps)
  = (dfs ++ flat_map frame_of xs, ps ++ filter survives xs).
Proof.
  revert dfs ps. induction xs as [|x xs IH]; intros dfs ps;
    cbn [fold_left flat_map filter].
  - now rewrite !app_nil_r.
  - unfold process_file at 2, frame_of at 1, survives at 1.
    destruct (read_excel x) as [df | e].
    + destruct (empty df); cbn [negb]; rewrite IH.
      * reflexivity.
      * now rewrite <- !app_assoc.
    + now rewrite IH.
Qed.

(** The loop appends, for each file that reads into a non-empty frame, the
    frame as read with its [source_file] column set, and records the file;
    it leaves every other file out of both lists. *)
Lemma process_files_spec (xs : list XlsxFile) :
  process_files xs = (flat_map frame_of xs, filter survives xs).
Proof.
  unfold process_files. now rewrite process_files_fold.
Qed.

Lemma frame_of_not_surviving (f : XlsxFile) :
  survives f = false -> frame_of f = [].
Proof.
  unfold survives, frame_of. destruct (read_excel f) as [df | e]; [|reflexivity].
  destruct (empty df); [reflexivity | discriminate].
Qed.

Lemma frames_nil (xs : list XlsxFile) :
  (forall f, In f xs -> survives f = false) -> flat_map frame_of xs = [].
Proof.
  induction xs as [|x xs IH]; intros H; simpl; [reflexivity|].
  rewrite (frame_of_not_surviving x) by (apply H; now left).
  apply IH. intros f Hf. apply H. now right.
Qed.

Lemma frames_filter (keep : XlsxFile -> bool) (xs : list XlsxFile) :
  (forall f, In f xs -> keep f = false -> survives f = false) ->
  flat_map frame_of (filter keep xs) = flat_map frame_of xs.
Proof.
  induction xs as [|x xs IH]; intros H; simpl; [reflexivity|].
  destruct (keep x) eqn:E; simpl.
  - f_equal. apply IH. intros f Hf. apply H. now right.
  - rewrite (frame_of_not_surviving x) by (apply H; [now left | assumption]).
    apply IH. intros f Hf. apply H. now right.
Qed.

Lemma frames_In (xs : list XlsxFile) (t : DataFrame) :
  In t (flat_map frame_of xs) <->
  exists f df, In f xs /\ read_excel f = Ok df /\ empty df = false
               /\ t = setitem df source_file (Str (name f)).
Proof.
  rewrite in_flat_map. split.
  - intros [f [Hf Ht]]. unfold frame_of in Ht.
    destruct (read_excel f) as [df | e] eqn:Ef; [|destruct Ht].
    destruct (empty df) eqn:Ee; [destruct Ht|].
    destruct Ht as [<- | []]. now exists f, df.
  - intros [f [df [Hf [Ef [Ee ->]]]]]. exists f. split; [assumption|].
    unfold frame_of. rewrite Ef, Ee. now left.
Qed.

Lemma frames_nonempty (xs : list XlsxFile) (f : XlsxFile) :
  In f xs -> survives f = true -> flat_map frame_of xs <> [].
Proof.
  intros Hf Hs Hnil. unfold survives in Hs.
  destruct (read_excel f) as [df | e] eqn:Ef; [|discriminate].
  apply negb_true_iff in Hs.
  assert (Hin : In (setitem df source_file (Str (name f))) (flat_map frame_of xs))
    by (apply frames_In; now exists f, df).
  rewrite Hnil in Hin. destruct Hin.
Qed.

Lemma frames_well_formed (xs : list XlsxFile) :
  (forall f df, In f xs -> read_excel f = Ok df -> well_formed df = true) ->
  forall t, In t (flat_map frame_of xs) -> well_formed t = true.
Proof.
  intros Hwf t [f [df [Hf [Ef [_ ->]]]]]%frames_In.
  apply well_formed_setitem. now apply (Hwf f).
Qed.

Lemma frames_row_count (xs : list XlsxFile) :
  List.length (flat_map rows (flat_map frame_of xs))
  = List.length (flat_map read_rows (filter survives xs)).
Proof.
  induction xs as [|x xs IH]; simpl; [reflexivity|].
  unfold frame_of at 1, survives at 1, read_rows.
  destruct (read_excel x) as [df | e] eqn:Ex; [|exact IH].
  destruct (empty df); cbn [negb]; [exact IH|].
  cbn [flat_map app]. rewrite !length_app, IH. f_equal.
  fold (read_rows x). unfold read_rows. rewrite Ex.
  unfold setitem. cbn [rows]. apply length_map.
Qed.

(* ===================================================================== *)
(** ** Moving the processed files *)
(* ===================================================================== *)

Lemma remove_named_In {A : Type} (key : A -> string) (n : string)
    (l : list A) (x : A) :
  In x (remove_named key n l) <-> In x l /\ key x <> n.
Proof.
  unfold remove_named. rewrite filter_In, negb_true_iff, String.eqb_neq.
  reflexivity.
Qed.

Section Moves.

Variable can_move : string -> bool.

Lemma moves_output (ps : list XlsxFile) (fs : Folders) :
  output (fold_left (move can_move) ps fs) = output fs.
Proof.
  revert fs. induction ps as [|p ps IH]; intros fs; simpl; [reflexivity|].
  rewrite IH. unfold move. now destruct (can_move (name p)).
Qed.

(** A file stays in the ready folder unless a file of its name is moved. *)
Lemma moves_keep_ready (ps : list XlsxFile) (fs : Folders) (f : XlsxFile) :
  In f (ready fs) ->
  (forall p, In p ps -> name p <> name f) ->
  In f (ready (fold_left (move can_move) ps fs)).
Proof.
  revert fs. induction ps as [|p ps IH]; intros fs Hf Hps; simpl;
    [assumption|].
  apply IH; [|intros q Hq; apply Hps; now right].
  unfold move. destruct (can_move (name p)); [|assumption].
  cbn [ready]. apply remove_named_In. split; [assumption|].
  intros Heq. apply (Hps p (or_introl eq_refl)). now symmetry.
Qed.

(** The done folder only receives names of moved files. *)
Lemma moves_done_names (ps : list XlsxFile) (fs : Folders) (n : string) :
  In n (map name (done (fold_left (move can_move) ps fs))) ->
  In n (map name (done fs)) \/ In n (map name ps).
Proof.
  revert fs. induction ps as [|p ps IH]; intros fs; simpl; [now left|].
  intros H. apply IH in H as [H | H]; [|right; now right].
  unfold move in H. destruct (can_move (name p)); [|now left].
  cbn [done map] in H. destruct H as [H | H]; [right; now left|].
  left. apply in_map_iff in H as [g [<- Hg]].
  apply remove_named_In in Hg as [Hg _]. now apply in_map.
Qed.

Lemma moves_keep_done (ps : list XlsxFile) (fs : Folders) (g : XlsxFile) :
  In g (done fs) ->
  (forall p, In p ps -> name p <> name g) ->
  In g (done (fold_left (move can_move) ps fs)).
Proof.
  revert fs. induction ps as [|p ps IH]; intros fs Hg Hps; simpl;
    [assumption|].
  apply IH; [|intros q Hq; apply Hps; now right].
  unfold move. destruct (can_move (name p)); [|assumption].
  cbn [done]. right. apply remove_named_In. split; [assumption|].
  intros Heq. apply (Hps p (or_introl eq_refl)). now symmetry.
Qed.

(** A processed file whose move goes through ends in the done folder. *)
Lemma moves_reach_done (ps : list XlsxFile) (fs : Folders) (g : XlsxFile) :
  NoDup (map name ps) -> In g ps -> can_move (name g) = true ->
  In g (done (fold_left (move can_move) ps fs)).
Proof.
  revert fs. induction ps as [|p ps IH]; intros fs Hnd Hg Hmv; simpl;
    [destruct Hg|].
  cbn [map] in Hnd. inversion Hnd as [|? ? Hp Hnd']; subst.
  destruct Hg as [-> | Hg].
  - apply moves_keep_done.
    + unfold move. rewrite Hmv. cbn [done]. now left.
    + intros q Hq Heq. apply Hp. rewrite <- Heq. now apply in_map.
  - now apply IH.
Qed.

End Moves.

Lemma NoDup_name_inj (l : list XlsxFile) (f g : XlsxFile) :
  NoDup (map name l) -> In f l -> In g l -> name f = name g -> f = g.
Proof.
  induction l as [|x l IH]; intros Hnd Hf Hg Heq; [destruct Hf|].
  cbn [map] in Hnd. inversion Hnd as [|? ? Hx Hnd']; subst.
  destruct Hf as [-> | Hf], Hg as [-> | Hg].
  - reflexivity.
  - exfalso. apply Hx. rewrite Heq. now apply in_map.
  - exfalso. apply Hx. rewrite <- Heq. now apply in_map.
  - now apply IH.
Qed.

Lemma NoDup_map_filter (keep : XlsxFile -> bool) (l : list XlsxFile) :
  NoDup (map name l) -> NoDup (map name (filter keep l)).
Proof.
  induction l as [|x l IH]; intros Hnd; simpl; [constructor|].
  cbn [map] in Hnd. inversion Hnd as [|? ? Hx Hnd']; subst.
  destruct (keep x); [|now apply IH].
  cbn [map]. constructor; [|now apply IH].
  intros [g [Hn Hg]]%in_map_iff. apply filter_In in Hg as [Hg _].
  apply Hx. rewrite <- Hn. now apply in_map.
Qed.

Lemma glob_xlsx_In (l : list XlsxFile) (f : XlsxFile) :
  In f (glob_xlsx l) -> In f l.
Proof.
  unfold glob_xlsx. now intros [H _]%filter_In.
Qed.

(** No recorded file bears the name of a file that did not survive. *)
Lemma processed_names_differ (l : list XlsxFile) (f : XlsxFile) :
  NoDup (map name l) -> In f l -> survives f = false ->
  forall p, In p (filter survives (glob_xlsx l)) -> name p <> name f.
Proof.
  intros Hnd Hf Hs p [Hp Hsp]%filter_In Heq.
  apply glob_xlsx_In in Hp.
  rewrite (NoDup_name_inj l p f Hnd Hp Hf Heq) in Hsp. congruence.
Qed.

Lemma lookup_to_csv (out : list (string * DataFrame)) (n : string)
    (df : DataFrame) :
  lookup n (to_csv out n df) = Some df.
Proof.
  unfold to_csv. simpl. now rewrite String.eqb_refl.
Qed.

(* ===================================================================== *)
(** ** The run as a whole *)
(* ===================================================================== *)

Section RunFacts.

Variable output_folder : string.
Variable timestamp : string.
Variable can_move : string -> bool.

Local Abbreviation compile := (compile_xlsx_to_csv output_folder timestamp can_move).
Local Abbreviation after_run := (after_run output_folder timestamp can_move).

Lemma compile_nothing (fs : Folders) (ofn : option string) :
  flat_map frame_of (glob_xlsx (ready fs)) = [] ->
  compile fs ofn = Ok (fs, None).
Proof.
  intros Hnil. unfold compile, compile_xlsx_to_csv.
  destruct (glob_xlsx (ready fs)) as [|x xs] eqn:Eg; [reflexivity|].
  rewrite process_files_spec, Hnil. reflexivity.
Qed.

Lemma compile_something (fs : Folders) (ofn : option string) :
  flat_map frame_of (glob_xlsx (ready fs)) <> [] ->
  compile fs ofn
  = match concat (flat_map frame_of (glob_xlsx (ready fs))) with
    | Ok combined =>
        Ok (after_run fs ofn combined,
            Some (output_file_path output_folder timestamp ofn))
    | Raise e => Raise e
    end.
Proof.
  intros Hne. unfold compile, compile_xlsx_to_csv, after_run.
  destruct (glob_xlsx (ready fs)) as [|x xs] eqn:Eg; [contradiction|].
  rewrite process_files_spec.
  destruct (flat_map frame_of (x :: xs)) as [|d ds] eqn:Ef; [contradiction|].
  reflexivity.
Qed.

Lemma compile_inv (fs fs' : Folders) (ofn r : option string) :
  compile fs ofn = Ok (fs', r) ->
  (r = None /\ fs' = fs /\ flat_map frame_of (glob_xlsx (ready fs)) = [])
  \/ (exists combined,
        r = Some (output_file_path output_folder timestamp ofn)
        /\ flat_map frame_of (glob_xlsx (ready fs)) <> []
        /\ concat (flat_map frame_of (glob_xlsx (ready fs))) = Ok combined
        /\ fs' = after_run fs ofn combined).
Proof.
  intros H.
  destruct (flat_map frame_of (glob_xlsx (ready fs))) as [|d ds] eqn:Ef.
  - rewrite (compile_nothing fs ofn Ef) in H. injection H as <- <-. now left.
  - assert (Hne : flat_map frame_of (glob_xlsx (ready fs)) <> [])
      by (rewrite Ef; discriminate).
    rewrite (compile_something fs ofn Hne), Ef in H.
    destruct (concat (d :: ds)) as [combined | e] eqn:Ec; [|discriminate].
    injection H as <- <-. right. exists combined.
    split; [reflexivity | split; [discriminate | split; reflexivity]].
Qed.

(** A file that did not survive the loop is where it was after the run:
    still in the ready folder, and no file of its name was put into the
    done folder. *)
Lemma not_surviving_stays (fs fs' : Folders) (ofn r : option string)
    (f : XlsxFile) :
  NoDup (map name (ready fs)) ->
  In f (ready fs) -> survives f = false ->
  compile fs ofn = Ok (fs', r) ->
  In f (ready fs')
  /\ (~ In (name f) (map name (done fs)) ->
      ~ In (name f) (map name (done fs'))).
Proof.
  intros Hnd Hf Hs Hrun.
  pose proof (processed_names_differ (ready fs) f Hnd Hf Hs) as Hdiff.
  apply compile_inv in Hrun as [[_ [-> _]] | [combined [_ [_ [_ ->]]]]].
  - now split.
  - unfold after_run. split.
    + now apply moves_keep_ready.
    + intros Hnot Hin. apply moves_done_names in Hin as [Hin | Hin].
      * now apply Hnot.
      * apply in_map_iff in Hin as [p [Hn Hp]]. now apply (Hdiff p).
Qed.

End RunFacts.

(* ===================================================================== *)
(** ** The merged table *)
(* ===================================================================== *)

Lemma filter_filter_survives (keep : XlsxFile -> bool) (xs : list XlsxFile) :
  (forall f, In f xs -> keep f = false -> survives f = false) ->
  filter survives (filter keep xs) = filter survives xs.
Proof.
  induction xs as [|x xs IH]; intros H; simpl; [reflexivity|].
  destruct (keep x) eqn:E; simpl.
  - destruct (survives x); [f_equal|]; apply IH; intros f Hf; apply H; now right.
  - rewrite (H x (or_introl eq_refl) E).
    apply IH. intros f Hf. apply H. now right.
Qed.

(** Leaving out the files of a folder that bear the name of a file which
    did not survive changes nothing to what the loop collects. *)
Lemma process_files_without (l : list XlsxFile) (f : XlsxFile) :
  NoDup (map name l) -> In f l -> survives f = false ->
  process_files (glob_xlsx l)
  = process_files (remove_named name (name f) (glob_xlsx l)).
Proof.
  intros Hnd Hf Hs. rewrite !process_files_spec.
  assert (Hkeep : forall g, In g (glob_xlsx l) ->
            negb (String.eqb (name g) (name f)) = false -> survives g = false).
  { intros g Hg Hn. apply negb_false_iff, String.eqb_eq in Hn.
    apply glob_xlsx_In in Hg.
    now rewrite (NoDup_name_inj l g f Hnd Hg Hf Hn). }
  unfold remove_named.
  now rewrite frames_filter, filter_filter_survives.
Qed.

(** Every row of the merged table comes from a row of a surviving file:
    it reads the file name under [source_file], the source row's value
    under each label of the source, and a missing value under every other
    label. *)
Lemma merged_row_cells (files : list XlsxFile) (combined : DataFrame) :
  (forall f df, In f files -> read_excel f = Ok df -> well_formed df = true) ->
  concat (flat_map frame_of files) = Ok combined ->
  forall m, In m (rows combined) ->
  exists f df r,
    In f files /\ read_excel f = Ok df /\ empty df = false /\ In r (rows df)
    /\ cell_at (columns combined) m source_file = Str (name f)
    /\ (forall c, c <> source_file -> In c (columns df) ->
          cell_at (columns combined) m c = cell_at (columns df) r c)
    /\ (forall c, c <> source_file -> ~ In c (columns df) ->
          cell_at (columns combined) m c = NaN).
Proof.
  intros Hwf Hc m Hm.
  destruct (concat_spec _ _ (frames_well_formed files Hwf) Hc) as [Hcols Hrows].
  rewrite Hrows in Hm. apply in_flat_map in Hm as [t [Ht Hm]].
  assert (Hsub : forall c, In c (columns t) -> In c (columns combined)).
  { intros c Hct. rewrite Hcols. unfold union_columns.
    apply fold_union_In. right. now exists t. }
  apply frames_In in Ht as [f [df [Hf [Ef [Ee Ht]]]]].
  unfold reindex in Hm. apply in_map_iff in Hm as [r' [<- Hr']].
  rewrite Ht in Hr'. unfold setitem in Hr'. cbn [rows] in Hr'.
  apply in_map_iff in Hr' as [r [<- Hr]].
  pose proof (Hwf f df Hf Ef) as Hdf. apply well_formed_spec in Hdf as [_ Hlen].
  specialize (Hlen r Hr).
  exists f, df, r. repeat (split; [assumption|]).
  unfold reindex_row. subst t. split; [|split].
  - rewrite cell_at_map by (apply Hsub, setitem_columns_In; now left).
    now apply cell_at_setitem_label.
  - intros c Hne Hin.
    rewrite cell_at_map by (apply Hsub, setitem_columns_In; now right).
    now apply cell_at_setitem_other.
  - intros c Hne Hnot.
    destruct (in_dec Cell_eq_dec c (columns combined)) as [Hin | Hout].
    + rewrite cell_at_map by assumption. apply cell_at_absent.
      rewrite setitem_columns_In. intros [? | ?]; contradiction.
    + now apply cell_at_absent.
Qed.


(** The cells of a source row once its [source_file] is set and the row
    is laid out on labels [u] that hold the labels of its frame. *)
Lemma tagged_row_cells (df : DataFrame) (n : string) (u : list Cell) (r : Row) :
  List.length r = List.length (columns df) ->
  (forall c, In c (columns (setitem df source_file (Str n))) -> In c u) ->
  cell_at u
    (reindex_row (columns (setitem df source_file (Str n))) u
       (setitem_row (columns df) source_file (Str n) r)) source_file
  = Str n
  /\ (forall c, c <> source_file -> In c (columns df) ->
        cell_at u
          (reindex_row (columns (setitem df source_file (Str n))) u
             (setitem_row (columns df) source_file (Str n) r)) c
        = cell_at (columns df) r c)
  /\ (forall c, c <> source_file -> ~ In c (columns df) ->
        cell_at u
          (reindex_row (columns (setitem df source_file (Str n))) u
             (setitem_row (columns df) source_file (Str n) r)) c
        = NaN).
Proof.
  intros Hlen Hsub. unfold reindex_row. split; [|split].
  - rewrite cell_at_map by (apply Hsub, setitem_columns_In; now left).
    now apply cell_at_setitem_label.
  - intros c Hne Hin.
    rewrite cell_at_map by (apply Hsub, setitem_columns_In; now right).
    now apply cell_at_setitem_other.
  - intros c Hne Hnot.
    destruct (in_dec Cell_eq_dec c u) as [Hin | Hout].
    + rewrite cell_at_map by assumption. apply cell_at_absent.
      rewrite setitem_columns_In. intros [? | ?]; contradiction.
    + now apply cell_at_absent.
Qed.

(** Every row of every surviving file is in the merged table, laid out on
    the merged columns. *)
Lemma source_rows_are_merged (files : list XlsxFile) (combined : DataFrame) :
  (forall f df, In f files -> read_excel f = Ok df -> well_formed df = true) ->
  concat (flat_map frame_of files) = Ok combined ->
  forall f df r,
    In f files -> read_excel f = Ok df -> empty df = false -> In r (rows df) ->
    exists m,
      In m (rows combined)
      /\ cell_at (columns combined) m source_file = Str (name f)
      /\ (forall c, c <> source_file -> In c (columns df) ->
            cell_at (columns combined) m c = cell_at (columns df) r c)
      /\ (forall c, c <> source_file -> ~ In c (columns df) ->
            cell_at (columns combined) m c = NaN).
Proof.
  intros Hwf Hc f df r Hf Ef Ee Hr.
  destruct (concat_spec _ _ (frames_well_formed files Hwf) Hc) as [Hcols Hrows].
  set (t := setitem df source_file (Str (name f))).
  assert (Ht : In t (flat_map frame_of files))
    by (apply frames_In; now exists f, df).
  assert (Hsub : forall c, In c (columns t) -> In c (columns combined)).
  { intros c Hct. rewrite Hcols. unfold union_columns.
    apply fold_union_In. right. now exists t. }
  pose proof (Hwf f df Hf Ef) as Hdf. apply well_formed_spec in Hdf as [_ Hlen].
  exists (reindex_row (columns t) (columns combined)
            (setitem_row (columns df) source_file (Str (name f)) r)).
  split.
  - rewrite Hrows. apply in_flat_map. exists t. split; [assumption|].
    unfold reindex. apply in_map. unfold t, setitem. cbn [rows].
    now apply in_map.
  - apply tagged_row_cells; [now apply Hlen | exact Hsub].
Qed.

(* ===================================================================== *)
(** ** Properties of [compile_xlsx_to_csv] *)
(* ===================================================================== *)

Ltac distinct_names :=
  repeat (constructor;
          [ cbn; intros H;
            repeat (destruct H as [H | H]; [discriminate H|]); exact H
          | ]);
  try constructor.




Section RunClaims.

Variable output_folder : string.
Variable timestamp : string.
Variable can_move : string -> bool.

Local Abbreviation compile := (compile_xlsx_to_csv output_folder timestamp can_move).

(** C8.  When every file found either fails to read or reads into an
    empty frame, the run returns [None] without raising, and the folders
    are what they were: no table is written to the output folder, no
    file leaves the ready folder, none enters the done folder. *)
Theorem nothing_survives_is_a_noop (fs : Folders) (ofn : option string) :
  (forall f, In f (glob_xlsx (ready fs)) ->
     (exists e, read_excel f = Raise e)
     \/ (exists df, read_excel f = Ok df /\ empty df = true)) ->
  compile fs ofn = Ok (fs, None).
Proof.
  intros H. apply compile_nothing. apply frames_nil.
  intros f Hf. unfold survives.
  destruct (H f Hf) as [[e ->] | [df [-> ->]]]; reflexivity.
Qed.

(** C9.  A file whose read raises is skipped and the run goes on: the
    loop collects what it would collect without that file, the file is
    not recorded, it is still in the ready folder after the run and no
    file of its name has entered the done folder.  When some file
    survives (all frames read being well-formed) the run does write a
    table, at the path it returns.  That table is the [pd.concat] of the
    frames of the surviving files: its columns are the first-seen union of
    their columns; each of its rows comes from a row of a surviving file,
    reads that file's name under [source_file], the source row's values
    under the source's labels and a missing value elsewhere; each row of
    each surviving file is in it; and it has as many rows as those files
    hold.  Every surviving file whose move goes through is in the done
    folder. *)
Theorem unreadable_file_is_skipped (fs : Folders) (ofn : option string)
    (f : XlsxFile) (e : Exn) :
  NoDup (map name (ready fs)) ->
  In f (glob_xlsx (ready fs)) ->
  read_excel f = Raise e ->
  process_files (glob_xlsx (ready fs))
  = process_files (remove_named name (name f) (glob_xlsx (ready fs)))
  /\ ~ In f (snd (process_files (glob_xlsx (ready fs))))
  /\ ~ In f (filter survives (glob_xlsx (ready fs)))
  /\ (forall fs' r,
        compile fs ofn = Ok (fs', r) ->
        In f (ready fs')
        /\ (~ In (name f) (map name (done fs)) ->
            ~ In (name f) (map name (done fs'))))
  /\ ((exists g, In g (glob_xlsx (ready fs)) /\ survives g = true) ->
      (forall g df, In g (glob_xlsx (ready fs)) -> read_excel g = Ok df ->
                    well_formed df = true) ->
      exists combined,
        compile fs ofn
        = Ok (after_run output_folder timestamp can_move fs ofn combined,
              Some (output_file_path output_folder timestamp ofn))
        /\ lookup (output_file_path output_folder timestamp ofn)
             (output (after_run output_folder timestamp can_move fs ofn combined))
           = Some combined
        /\ concat (flat_map frame_of (filter survives (glob_xlsx (ready fs))))
           = Ok combined
        /\ columns combined
           = union_columns
               (flat_map frame_of (filter survives (glob_xlsx (ready fs))))
        /\ rows combined
           = flat_map (reindex (columns combined))
               (flat_map frame_of
                  (filter survives (glob_xlsx (ready fs))))
        /\ List.length (rows combined)
           = List.length
               (flat_map read_rows (filter survives (glob_xlsx (ready fs))))
        /\ (forall m, In m (rows combined) ->
              exists g df r,
                In g (filter survives (glob_xlsx (ready fs)))
                /\ read_excel g = Ok df /\ In r (rows df)
                /\ cell_at (columns combined) m source_file = Str (name g)
                /\ (forall c, c <> source_file -> In c (columns df) ->
                      cell_at (columns combined) m c = cell_at (columns df) r c)
                /\ (forall c, c <> source_file -> ~ In c (columns df) ->
                      cell_at (columns combined) m c = NaN))
        /\ (forall g df r,
              In g (filter survives (glob_xlsx (ready fs))) ->
              read_excel g = Ok df -> In r (rows df) ->
              exists m,
                In m (rows combined)
                /\ cell_at (columns combined) m source_file = Str (name g)
                /\ (forall c, c <> source_file -> In c (columns df) ->
                      cell_at (columns combined) m c = cell_at (columns df) r c)
                /\ (forall c, c <> source_file -> ~ In c (columns df) ->
                      cell_at (columns combined) m c = NaN))
        /\ forall g, In g (glob_xlsx (ready fs)) -> survives g = true ->
             can_move (name g) = true ->
             In g (done (after_run output_folder timestamp can_move fs ofn combined))).
Proof.
  intros Hnd Hf Ef.
  assert (Hs : survives f = false) by (unfold survives; now rewrite Ef).
  pose proof (glob_xlsx_In _ _ Hf) as Hready.
  split; [now apply process_files_without|].
  split; [|split; [|split]].
  - rewrite process_files_spec. cbn [snd]. intros [_ Hin]%filter_In. congruence.
  - intros [_ Hin]%filter_In. congruence.
  - intros fs' r Hrun.
    now apply (not_surviving_stays output_folder timestamp can_move fs fs' ofn r f).
  - intros [g [Hg Hgs]] Hwf.
    set (survivors := filter survives (glob_xlsx (ready fs))).
    assert (Hframes : flat_map frame_of survivors
                      = flat_map frame_of (glob_xlsx (ready fs)))
      by (apply frames_filter; intros; assumption).
    assert (Hwfs : forall g df, In g survivors -> read_excel g = Ok df ->
                                well_formed df = true).
    { intros g' df [Hg' _]%filter_In. now apply Hwf. }
    pose proof (frames_nonempty _ g Hg Hgs) as Hne.
    pose proof (frames_well_formed _ Hwf) as Hwft.
    destruct (concat_returns _ Hne Hwft) as [combined Hc].
    assert (Hcs : concat (flat_map frame_of survivors) = Ok combined)
      by (now rewrite Hframes).
    destruct (concat_spec _ _ Hwft Hc) as [Hcols Hrows].
    exists combined.
    split; [|split; [|split; [|split; [|split; [|split; [|split; [|split]]]]]]].
    + rewrite (compile_something output_folder timestamp can_move fs ofn Hne).
      now rewrite Hc.
    + unfold after_run. rewrite moves_output. cbn [output].
      apply lookup_to_csv.
    + exact Hcs.
    + now rewrite Hframes.
    + now rewrite Hframes.
    + rewrite (concat_row_count _ _ Hwft Hc). apply frames_row_count.
    + intros m Hm.
      destruct (merged_row_cells survivors combined Hwfs Hcs m Hm)
        as [g' [df [r [Hg' [Eg [_ [Hr Hcells]]]]]]].
      now exists g', df, r.
    + intros g' df r Hg' Eg Hr.
      apply (source_rows_are_merged survivors combined Hwfs Hcs g' df r);
        try assumption.
      apply filter_In in Hg' as [_ Hsg]. unfold survives in Hsg.
      rewrite Eg in Hsg. now apply negb_true_iff in Hsg.
    + intros g' Hg' Hs' Hmv. unfold after_run.
      apply moves_reach_done.
      * apply NoDup_map_filter. unfold glob_xlsx. now apply NoDup_map_filter.
      * apply filter_In. now split.
      * assumption.
Qed.

(** C10.  In a run that writes a table, a file read into an empty frame
    adds no frame to the merge (the loop collects what it would collect
    without the file, and the table written is the merge of the other
    files), is not recorded as processed, is still in the ready folder
    after the run, and no file of its name has entered the done
    folder. *)
Theorem empty_frame_file_stays_in_ready (fs fs' : Folders)
    (ofn : option string) (path : string) (f : XlsxFile) (df : DataFrame) :
  NoDup (map name (ready fs)) ->
  In f (glob_xlsx (ready fs)) ->
  read_excel f = Ok df -> empty df = true ->
  compile fs ofn = Ok (fs', Some path) ->
  frame_of f = []
  /\ process_files (glob_xlsx (ready fs))
     = process_files (remove_named name (name f) (glob_xlsx (ready fs)))
  /\ (exists combined,
        lookup path (output fs') = Some combined
        /\ concat (fst (process_files
                          (remove_named name (name f) (glob_xlsx (ready fs)))))
           = Ok combined)
  /\ ~ In f (snd (process_files (glob_xlsx (ready fs))))
  /\ In f (ready fs')
  /\ (~ In (name f) (map name (done fs)) ->
      ~ In (name f) (map name (done fs'))).
Proof.
  intros Hnd Hf Ef Ee Hrun.
  assert (Hs : survives f = false) by (unfold survives; now rewrite Ef, Ee).
  pose proof (glob_xlsx_In _ _ Hf) as Hready.
  pose proof (process_files_without (ready fs) f Hnd Hready Hs) as Hwithout.
  split; [now apply frame_of_not_surviving|].
  split; [exact Hwithout|].
  split; [|split].
  - rewrite <- Hwithout, process_files_spec. cbn [fst].
    pose proof Hrun as Hinv.
    apply compile_inv in Hinv as [[Hr _] | [combined [Hr [_ [Hc ->]]]]];
      [discriminate|].
    injection Hr as ->. exists combined. split; [|assumption].
    unfold after_run. rewrite moves_output. cbn [output].
    apply lookup_to_csv.
  - rewrite process_files_spec. cbn [snd]. intros [_ Hin]%filter_In. congruence.
  - now apply (not_surviving_stays output_folder timestamp can_move fs fs' ofn (Some path) f).
Qed.

End RunClaims.

(** C1 (as the code has it).  The run merges each sheet as read: the call
    of [clean_dataframe] is disabled in the loop, which collects, for every
    file read into a non-empty frame, that very frame with its
    [source_file] column set.  The table written therefore holds every row
    of every surviving sheet, title and header rows included.  For the two
    sheets of the scenario, given by their rows under positional column
    labels, the merged table has the columns 0, 1, 2, source_file and five
    rows. *)
Theorem sheets_are_merged_as_read :
  (forall xs, process_files xs = (flat_map frame_of xs, filter survives xs))
  /\ (forall xs t,
        In t (fst (process_files xs)) <->
        exists f df, In f xs /\ read_excel f = Ok df /\ empty df = false
                     /\ t = setitem df source_file (Str (name f)))
  /\ (forall output_folder timestamp can_move fs ofn fs' path combined,
        (forall g df, In g (glob_xlsx (ready fs)) -> read_excel g = Ok df ->
                      well_formed df = true) ->
        compile_xlsx_to_csv output_folder timestamp can_move fs ofn = Ok (fs', Some path) ->
        lookup path (output fs') = Some combined ->
        List.length (rows combined)
        = List.length (flat_map read_rows (filter survives (glob_xlsx (ready fs)))))
  /\ (exists fs',
        compile_xlsx_to_csv "CSV" "20240101_000000" (fun _ => true) two_sheets
          (Some "out.csv") = Ok (fs', Some "CSV/out.csv")
        /\ lookup "CSV/out.csv" (output fs')
           = Some (mkDataFrame [Int 0; Int 1; Int 2; source_file]
                     [ [Str "Monthly Billing Summary"; NaN; NaN; Str "Sheet1.xlsx"];
                       [Str "INVOICE"; Str "CUSTOMER"; Str "AMOUNT"; Str "Sheet1.xlsx"];
                       [Str "1001"; Str "Acme"; Str "50.00"; Str "Sheet1.xlsx"];
                       [Str "INVOICE"; Str "CUSTOMER"; Str "FEE"; Str "Sheet2.xlsx"];
                       [Str "1002"; Str "Globex"; Str "10.00"; Str "Sheet2.xlsx"] ])).
Proof.
  split; [exact process_files_spec|].
  split; [intros xs t; rewrite process_files_spec; apply frames_In|].
  split.
  - intros output_folder timestamp can_move fs ofn fs' path combined Hwf Hrun Hlook.
    apply compile_inv in Hrun as [[Hr _] | [combined' [Hr [_ [Hc ->]]]]];
      [discriminate|].
    injection Hr as ->.
    unfold after_run in Hlook.
    rewrite moves_output in Hlook. cbn [output] in Hlook.
    rewrite lookup_to_csv in Hlook. injection Hlook as ->.
    rewrite (concat_row_count _ _ (frames_well_formed _ Hwf) Hc).
    apply frames_row_count.
  - eexists. split; [vm_compute; reflexivity | reflexivity].
Qed.

Lemma sheets_are_merged_as_read_witness :
  exists fs' combined,
    compile_xlsx_to_csv "CSV" "20240101_000000" (fun _ => true) two_sheets
      (Some "out.csv") = Ok (fs', Some "CSV/out.csv")
    /\ lookup "CSV/out.csv" (output fs') = Some combined
    /\ List.length (rows combined) = 5.
Proof.
  eexists. eexists.
  split; [vm_compute; reflexivity|].
  split; [reflexivity|].
  refine (proj1 (proj2 (proj2 sheets_are_merged_as_read))
            "CSV" "20240101_000000" (fun _ => true) two_sheets (Some "out.csv")
            _ "CSV/out.csv" _ _ eq_refl eq_refl).
  intros g df Hg Eg. cbn in Hg.
  destruct Hg as [<- | [<- | []]]; injection Eg as <-; reflexivity.
Defined.

(** C1 fails as stated: on the two sheets of the scenario the run does not
    normalize.  With the sheets given by their rows, the table written has
    the columns 0, 1, 2, source_file and five rows, the title row among
    them; with the first row of each sheet taken for the column names, as
    [pd.read_excel] does by default, it has seven columns and three rows.
    Neither has the columns INVOICE, CUSTOMER, AMOUNT, FEE, source_file
    with two rows. *)
Lemma two_sheets_are_not_normalized :
  (exists fs' combined,
     compile_xlsx_to_csv "CSV" "20240101_000000" (fun _ => true) two_sheets
       (Some "out.csv") = Ok (fs', Some "CSV/out.csv")
     /\ lookup "CSV/out.csv" (output fs') = Some combined
     /\ columns combined = [Int 0; Int 1; Int 2; source_file]
     /\ List.length (rows combined) = 5
     /\ In [Str "Monthly Billing Summary"; NaN; NaN; Str "Sheet1.xlsx"]
          (rows combined)
     /\ columns combined
        <> [Str "INVOICE"; Str "CUSTOMER"; Str "AMOUNT"; Str "FEE"; source_file])
  /\ (exists fs' combined,
        compile_xlsx_to_csv "CSV" "20240101_000000" (fun _ => true)
          two_sheets_first_row_header (Some "out.csv")
        = Ok (fs', Some "CSV/out.csv")
        /\ lookup "CSV/out.csv" (output fs') = Some combined
        /\ columns combined
           = [Str "Monthly Billing Summary"; Str "Unnamed: 1"; Str "Unnamed: 2";
              source_file; Str "INVOICE"; Str "CUSTOMER"; Str "FEE"]
        /\ List.length (rows combined) = 3).
Proof.
  split.
  - eexists. eexists.
    split; [vm_compute; reflexivity|].
    split; [reflexivity|].
    split; [reflexivity|].
    split; [reflexivity|].
    split; [now left | discriminate].
  - eexists. eexists.
    split; [vm_compute; reflexivity|].
    split; [reflexivity|].
    split; reflexivity.
Qed.

Lemma nothing_survives_is_a_noop_witness :
  compile_xlsx_to_csv "CSV" "20240101_000000" (fun _ => true) nothing_survives None
  = Ok (nothing_survives, None).
Proof.
  apply (nothing_survives_is_a_noop "CSV" "20240101_000000" (fun _ => true)
           nothing_survives None).
  intros f Hf. cbn in Hf. destruct Hf as [<- | [<- | []]].
  - left. exists ReadError. reflexivity.
  - right. exists (mkDataFrame [] []). split; reflexivity.
Defined.

Lemma unreadable_file_is_skipped_witness :
  exists combined,
    compile_xlsx_to_csv "CSV" "20240101_000000" (fun _ => true) mixed_folder None
    = Ok (after_run "CSV" "20240101_000000" (fun _ => true) mixed_folder None combined,
          Some "CSV/combined_data_20240101_000000.csv")
    /\ columns combined = [Str "A"; Str "B"; source_file]
    /\ rows combined = [ [Int 1; Int 2; Str "ab.xlsx"] ].
Proof.
  assert (Hnd : NoDup (map name (ready mixed_folder))) by distinct_names.
  assert (Hin : In (mkXlsxFile "bad.xlsx" (Raise ReadError))
                  (glob_xlsx (ready mixed_folder))) by (cbn; now left).
  destruct (proj2 (proj2 (proj2 (proj2
              (unreadable_file_is_skipped "CSV" "20240101_000000" (fun _ => true)
                 mixed_folder None (mkXlsxFile "bad.xlsx" (Raise ReadError))
                 ReadError Hnd Hin eq_refl)))))
    as [combined [Hrun [_ [_ [Hcols [Hrows _]]]]]].
  - exists (mkXlsxFile "ab.xlsx" (Ok table_AB)).
    split; [cbn; right; now left | reflexivity].
  - intros g df Hg Eg. cbn in Hg.
    destruct Hg as [<- | [<- | [<- | []]]]; try discriminate Eg;
      injection Eg as <-; reflexivity.
  - exists combined. split; [exact Hrun|].
    assert (Hc : columns combined = [Str "A"; Str "B"; source_file])
      by (rewrite Hcols; reflexivity).
    split; [exact Hc|]. rewrite Hrows, Hc. reflexivity.
Defined.

Lemma empty_frame_file_stays_in_ready_witness :
  exists fs',
    compile_xlsx_to_csv "CSV" "20240101_000000" (fun _ => true) mixed_folder None
    = Ok (fs', Some "CSV/combined_data_20240101_000000.csv")
    /\ In (mkXlsxFile "blank.xlsx" (Ok (mkDataFrame [] []))) (ready fs').
Proof.
  eexists. split; [vm_compute; reflexivity|].
  assert (Hnd : NoDup (map name (ready mixed_folder))) by distinct_names.
  refine (proj1 (proj2 (proj2 (proj2 (proj2
            (empty_frame_file_stays_in_ready "CSV" "20240101_000000" (fun _ => true)
               mixed_folder _ None "CSV/combined_data_20240101_000000.csv"
               (mkXlsxFile "blank.xlsx" (Ok (mkDataFrame [] [])))
               (mkDataFrame [] []) Hnd _ eq_refl eq_refl _)))))).
  - cbn. right. right. now left.
  - vm_compute. reflexivity.
Defined.


(* ===================================================================== *)
(** ** More on strings *)
(* ===================================================================== *)

Lemma upper_ascii_idempotent (c : ascii) :
  Py.upper_ascii (Py.upper_ascii c) = Py.upper_ascii c.
Proof.
  destruct c as [[] [] [] [] [] [] [] []]; reflexivity.
Qed.

Lemma upper_idempotent (s : string) : Py.upper (Py.upper s) = Py.upper s.
Proof.
  induction s as [|c s IH]; simpl; [reflexivity|].
  now rewrite upper_ascii_idempotent, IH.
Qed.

Lemma startswith_app (p s : string) :
  Py.startswith p s = true <-> exists post, s = (p ++ post)%string.
Proof.
  revert s. induction p as [|a p IH]; intros s; simpl.
  - split; [intros _; now exists s | reflexivity].
  - destruct s as [|b s].
    + split; [discriminate | intros [post H]; discriminate].
    + rewrite andb_true_iff, Ascii.eqb_eq, IH. split.
      * intros [-> [post ->]]. now exists post.
      * intros [post H]. injection H as -> ->. split; [reflexivity | now exists post].
Qed.

(** [p in s] holds exactly when [s] is some text, then [p], then some
    text. *)
Lemma contains_app (p s : string) :
  Py.contains p s = true <-> exists pre post, s = (pre ++ p ++ post)%string.
Proof.
  induction s as [|b s IH].
  - simpl. rewrite orb_false_r, startswith_app. split.
    + intros [post H]. now exists ""%string, post.
    + intros [pre [post H]]. destruct pre; [now exists post | discriminate].
  - cbn [Py.contains]. rewrite orb_true_iff, startswith_app, IH. split.
    + intros [[post H] | [pre [post H]]].
      * now exists ""%string, post.
      * exists (String b pre), post. simpl. now rewrite H.
    + intros [pre [post H]]. destruct pre as [|c pre].
      * left. now exists post.
      * right. simpl in H. injection H as -> ->. now exists pre, post.
Qed.

Lemma string_app_assoc (a b c : string) :
  ((a ++ b) ++ c = a ++ (b ++ c))%string.
Proof.
  induction a as [|x a IH]; simpl; [reflexivity | now rewrite IH].
Qed.

(** A piece of a piece is a piece. *)
Lemma contains_trans (p q s : string) :
  Py.contains p q = true -> Py.contains q s = true -> Py.contains p s = true.
Proof.
  rewrite !contains_app.
  intros [pre1 [post1 ->]] [pre2 [post2 ->]].
  exists (pre2 ++ pre1)%string, (post1 ++ post2)%string.
  now rewrite !string_app_assoc.
Qed.

Lemma string_length_app (a b : string) :
  String.length (a ++ b) = String.length a + String.length b.
Proof.
  induction a as [|x a IH]; simpl; [reflexivity | now rewrite IH].
Qed.

Lemma substring_whole (p : string) : substring 0 (String.length p) p = p.
Proof.
  induction p as [|x p IH]; simpl; [reflexivity | now rewrite IH].
Qed.

Lemma substring_suffix (a p : string) :
  substring (String.length a) (String.length p) (a ++ p) = p.
Proof.
  induction a as [|x a IH]; simpl; [apply substring_whole | exact IH].
Qed.

Lemma endswith_app (a p : string) : Py.endswith p (a ++ p) = true.
Proof.
  unfold Py.endswith. rewrite string_length_app.
  replace (String.length a + String.length p - String.length p)
    with (String.length a) by lia.
  rewrite substring_suffix, String.eqb_refl, andb_true_r.
  apply Nat.leb_le. lia.
Qed.

Lemma upper_app (a b : string) :
  Py.upper (a ++ b) = (Py.upper a ++ Py.upper b)%string.
Proof.
  induction a as [|x a IH]; simpl; [reflexivity | now rewrite IH].
Qed.

Lemma substring_split (s : string) (n : nat) :
  n <= String.length s ->
  s = (substring 0 n s ++ substring n (String.length s - n) s)%string.
Proof.
  revert n. induction s as [|x s IH]; intros n Hn; simpl in Hn.
  - destruct n; [reflexivity | lia].
  - destruct n as [|n].
    + cbn [substring append]. rewrite Nat.sub_0_r.
      change (String x s = String x (substring 0 (String.length s) s)).
      now rewrite substring_whole.
    + cbn [substring append String.length Nat.sub]. f_equal. apply IH. lia.
Qed.

Lemma endswith_inv (p s : string) :
  Py.endswith p s = true -> exists a, s = (a ++ p)%string.
Proof.
  unfold Py.endswith. intros H. apply andb_true_iff in H as [Hle Heq].
  apply Nat.leb_le in Hle. apply String.eqb_eq in Heq.
  exists (substring 0 (String.length s - String.length p) s).
  pose proof (substring_split s (String.length s - String.length p)
                ltac:(lia)) as Hs.
  replace (String.length s - (String.length s - String.length p))
    with (String.length p) in Hs by lia.
  now rewrite Heq in Hs.
Qed.

(** A name with a given ending, once in capitals, has that ending in
    capitals. *)
Lemma endswith_upper (p s : string) :
  Py.endswith p s = true -> Py.endswith (Py.upper p) (Py.upper s) = true.
Proof.
  intros [a ->]%endswith_inv. rewrite upper_app. apply endswith_app.
Qed.

Lemma endswith_nonempty (p s : string) :
  p <> ""%string -> Py.endswith p s = true -> s <> ""%string.
Proof.
  intros Hp H ->. unfold Py.endswith in H. simpl in H.
  destruct p as [|x p]; [contradiction | discriminate].
Qed.

(* ===================================================================== *)
(** ** More on the header search *)
(* ===================================================================== *)

Lemma row_str_upper_cells (row : Row) :
  row_str (map upper_cell row) = row_str row.
Proof.
  unfold row_str. f_equal.
  induction row as [|c row IH]; simpl; [reflexivity|].
  destruct c as [|s|z]; simpl; try exact IH.
  - now rewrite upper_idempotent, IH.
  - now rewrite IH.
Qed.

Lemma find_header_ext (f : Row -> Row) (rs : list Row) (idx : nat) :
  (forall row, is_header_row (f row) = is_header_row row) ->
  find_header idx (map f rs) = find_header idx rs.
Proof.
  intros Hf. revert idx. induction rs as [|row rs IH]; intros idx; simpl.
  - reflexivity.
  - rewrite Hf. now rewrite IH.
Qed.

(** The header search does not look at the letter case of the cells: a
    sheet and the same sheet written in capitals have their header row at
    the same place, and so do any two sheets that differ by letter case
    only. *)
Theorem header_search_ignores_letter_case :
  (forall df, header_row_idx (upper_frame df) = header_row_idx df)
  /\ (forall df df',
        upper_frame df = upper_frame df' ->
        header_row_idx df = header_row_idx df').
Proof.
  assert (H : forall df, header_row_idx (upper_frame df) = header_row_idx df).
  { intros df. unfold header_row_idx, upper_frame. cbn [rows].
    apply find_header_ext. intros row. unfold is_header_row.
    now rewrite row_str_upper_cells. }
  split; [exact H|].
  intros df df' Heq. now rewrite <- (H df), Heq, H.
Qed.

Lemma header_search_ignores_letter_case_witness :
  header_row_idx small_letters_sheet
  = header_row_idx
      (sheet [ [Str "INVOICE"; Str "CUSTOMER"]; [Str "1001"; Str "ACME"] ]).
Proof.
  apply (proj2 header_search_ignores_letter_case). reflexivity.
Defined.

(** A row that mentions CUSTOMER_INVOICE_NUMBER stops the header search by
    itself: the indicators CUSTOMER and INVOICE occur inside that one
    word, so three indicators are counted at least. *)
Theorem customer_invoice_number_alone_is_a_header (row : Row) :
  Py.contains "CUSTOMER_INVOICE_NUMBER" (row_str row) = true ->
  3 <= indicators_found (row_str row) /\ is_header_row row = true.
Proof.
  intros H.
  assert (Hc : Py.contains "CUSTOMER" (row_str row) = true)
    by (apply (contains_trans _ "CUSTOMER_INVOICE_NUMBER"); [reflexivity | exact H]).
  assert (Hi : Py.contains "INVOICE" (row_str row) = true)
    by (apply (contains_trans _ "CUSTOMER_INVOICE_NUMBER"); [reflexivity | exact H]).
  assert (Hthree : 3 <= indicators_found (row_str row)).
  { unfold indicators_found, header_indicators. cbn [filter].
    rewrite H, Hc, Hi.
    repeat match goal with
           | |- context [if ?b then _ else _] => destruct b
           end; cbn [List.length]; lia. }
  split; [exact Hthree | apply is_header_row_spec; lia].
Qed.

Lemma customer_invoice_number_alone_is_a_header_witness :
  is_header_row [NaN; Str "Customer_Invoice_Number"; NaN] = true.
Proof.
  apply (proj2 (customer_invoice_number_alone_is_a_header
                  [NaN; Str "Customer_Invoice_Number"; NaN] eq_refl)).
Defined.

(* ===================================================================== *)
(** ** The name of the output file *)
(* ===================================================================== *)

(** The name the table is written under always ends in .csv and is never
    empty; a name that already ends in .csv is taken as it is, any other
    name gets .csv appended, and without a name the name is built from the
    time stamp. *)
Theorem output_name_ends_in_csv (timestamp : string) :
  (forall ofn, Py.endswith ".csv" (output_name timestamp ofn) = true
               /\ output_name timestamp ofn <> ""%string)
  /\ (forall n, Py.endswith ".csv" n = true ->
                output_name timestamp (Some n) = n)
  /\ (forall n, Py.endswith ".csv" n = false ->
                output_name timestamp (Some n) = (n ++ ".csv")%string)
  /\ output_name timestamp None
     = ("combined_data_" ++ timestamp ++ ".csv")%string.
Proof.
  assert (Hts : Py.endswith ".csv" ("combined_data_" ++ timestamp ++ ".csv") = true).
  { rewrite <- string_app_assoc. apply endswith_app. }
  assert (Hends : forall ofn, Py.endswith ".csv" (output_name timestamp ofn) = true).
  { intros [n|]; unfold output_name.
    - destruct (Py.endswith ".csv" n) eqn:E; cbn [negb];
        [exact E | apply endswith_app].
    - now rewrite Hts. }
  split; [|split; [|split]].
  - intros ofn. split; [apply Hends|].
    apply (endswith_nonempty ".csv"); [discriminate | apply Hends].
  - intros n E. unfold output_name. now rewrite E.
  - intros n E. unfold output_name. now rewrite E.
  - unfold output_name. now rewrite Hts.
Qed.

Lemma output_name_ends_in_csv_witness :
  output_name "20240101_000000" (Some "report") = "report.csv"%string.
Proof.
  apply (proj1 (proj2 (proj2 (output_name_ends_in_csv "20240101_000000")))).
  reflexivity.
Defined.

(* ===================================================================== *)
(** ** More on [clean_dataframe] *)
(* ===================================================================== *)

Lemma In_skipn_In {A : Type} (n : nat) (l : list A) (x : A) :
  In x (skipn n l) -> In x l.
Proof.
  revert l. induction n as [|n IH]; intros [|y l]; simpl; auto.
Qed.

Lemma length_skipn_le {A : Type} (n : nat) (l : list A) :
  List.length (skipn n l) <= List.length l.
Proof.
  rewrite length_skipn. lia.
Qed.

Lemma filter_filter_andb {A : Type} (f g : A -> bool) (l : list A) :
  filter g (filter f l) = filter (fun x => f x && g x) l.
Proof.
  induction l as [|x l IH]; simpl; [reflexivity|].
  destruct (f x); simpl; [destruct (g x) |]; now rewrite IH.
Qed.

Lemma filter_all {A : Type} (f : A -> bool) (l : list A) :
  (forall x, In x l -> f x = true) -> filter f l = l.
Proof.
  intros H. apply forallb_filter_id. now apply forallb_forall.
Qed.

Lemma drop_keyword_rows (df : DataFrame) (kw : string) :
  rows (drop_keyword df kw)
  = filter (fun r => negb (row_mentions (Py.upper kw) r)) (rows df).
Proof.
  unfold drop_keyword. cbn [rows]. rewrite map_map.
  apply (select_rows_filter (fun r => negb (row_mentions (Py.upper kw) r))).
Qed.

Lemma drop_keywords_rows (kws : list string) (df : DataFrame) :
  rows (fold_left drop_keyword kws df)
  = filter (fun r => forallb (fun kw => negb (row_mentions (Py.upper kw) r)) kws)
      (rows df).
Proof.
  revert df. induction kws as [|kw kws IH]; intros df; cbn [fold_left].
  - symmetry. apply filter_all. reflexivity.
  - rewrite IH, drop_keyword_rows, filter_filter_andb. reflexivity.
Qed.

Lemma getitem_str_Ok (df : DataFrame) (label : Cell) (series : list Cell) :
  getitem_str df label = Ok series ->
  exists i, series = map (fun r => nth i r NaN) (rows df).
Proof.
  unfold getitem_str.
  destruct (label_count (columns df) label) as [|[|n]];
    destruct (index_of label (columns df)) as [i|]; try discriminate.
  intros H. injection H as <-. now exists i.
Qed.

(** Whatever the header-found branch returns, its rows are picked, in
    order, among the rows below the header that hold a value. *)
Lemma header_path_selects (df : DataFrame) (k : nat) (out : DataFrame) :
  header_path df k = Ok out ->
  exists keep,
    rows out
    = filter keep (filter has_value (skipn (k + 1) (rows df))).
Proof.
  unfold header_path, dropna_all. cbn [columns rows].
  assert (Hall : forall data : list Row, data = filter (fun _ => true) data)
    by (intros data; symmetry; apply filter_all; reflexivity).
  destruct (negb (empty _)).
  - destruct (nth k (rows df) []) as [|first_col rest].
    + intros H. injection H as <-. now exists (fun _ => true).
    + destruct (label_in first_col (first_col :: rest)).
      * destruct (getitem_str _ first_col) as [series | e] eqn:Eg; [|discriminate].
        apply getitem_str_Ok in Eg as [i ->]. cbn [rows].
        intros H. injection H as <-. cbn [rows].
        exists (fun r => negb (header_mask (nth i r NaN))).
        apply (select_rows_negb_map header_mask (fun r => nth i r NaN)).
      * intros H. injection H as <-. now exists (fun _ => true).
  - intros H. injection H as <-. now exists (fun _ => true).
Qed.

(** [clean_dataframe] never makes up a row and never alters one: the rows
    it returns are picked, in their order, among the rows of the frame it
    was given, so each returned row is a row of the input and there are no
    more of them than the input has. *)
Theorem clean_dataframe_only_selects_rows (df out : DataFrame) :
  clean_dataframe df = Ok out ->
  (exists n keep, rows out = filter keep (skipn n (rows df)))
  /\ (forall r, In r (rows out) -> In r (rows df))
  /\ List.length (rows out) <= List.length (rows df).
Proof.
  intros H.
  assert (Hsel : exists n keep, rows out = filter keep (skipn n (rows df))).
  { unfold clean_dataframe in H. destruct (empty df).
    - injection H as <-. exists 0, (fun _ => true).
      symmetry. apply filter_all. reflexivity.
    - destruct (header_row_idx df) as [k|].
      + apply header_path_selects in H as [keep ->].
        rewrite filter_filter_andb. now exists (k + 1), (fun x => has_value x && keep x).
      + injection H as <-. unfold general_path, dropna_thresh. cbn [rows].
        rewrite drop_keywords_rows, filter_filter_andb.
        now eexists 0, _. }
  split; [exact Hsel|].
  destruct Hsel as [n [keep ->]]. split.
  - intros r [Hr _]%filter_In. now apply In_skipn_In in Hr.
  - etransitivity; [apply filter_length_le | apply length_skipn_le].
Qed.

Lemma clean_dataframe_only_selects_rows_witness :
  List.length (rows (mkDataFrame [Str "INVOICE"; Str "CUSTOMER"; Str "AMOUNT"]
                       [ [Str "1001"; Str "Acme"; Str "50.00"] ]))
  <= List.length (rows Sheet1).
Proof.
  apply (proj2 (proj2 (clean_dataframe_only_selects_rows Sheet1 _ eq_refl))).
Defined.

(** With a header row at index [k] whose first cell labels one column
    only, [clean_dataframe] returns the header cells as columns and, as
    rows, exactly the rows below index [k] that hold a value and that the
    first-column mask does not flag, in their order.  The header row and
    the rows above it are never returned, nor is a row without any value,
    nor a row whose first cell contains TOTAL in any letter case. *)
Theorem header_found_rows_are_below_header (df : DataFrame) (k : nat) :
  empty df = false ->
  header_row_idx df = Some k ->
  label_count (nth k (rows df) []) (hd NaN (nth k (rows df) [])) = 1 ->
  exists out,
    clean_dataframe df = Ok out
    /\ columns out = nth k (rows df) []
    /\ rows out
       = filter (fun r => has_value r && negb (header_mask (nth 0 r NaN)))
           (skipn (k + 1) (rows df))
    /\ forall r, In r (rows out) ->
         In r (skipn (k + 1) (rows df))
         /\ has_value r = true
         /\ Py.contains "TOTAL" (Py.upper (str (nth 0 r NaN))) = false.
Proof.
  intros Hne Hk Hone. unfold clean_dataframe. rewrite Hne, Hk.
  destruct (header_path_rows df k Hone) as [out [Hout Hrows]].
  exists out. split; [exact Hout|].
  split; [now apply header_path_columns|].
  assert (Heq : rows out
       = filter (fun r => has_value r && negb (header_mask (nth 0 r NaN)))
           (skipn (k + 1) (rows df))).
  { rewrite Hrows, filter_filter_andb. apply filter_ext.
    intros r. now rewrite header_mask_only_total. }
  split; [exact Heq|].
  intros r Hr. rewrite Heq in Hr. apply filter_In in Hr as [Hin Hkeep].
  apply andb_true_iff in Hkeep as [Hval Hmask].
  rewrite header_mask_only_total in Hmask. apply negb_true_iff in Hmask.
  now repeat split.
Qed.

Lemma header_found_rows_are_below_header_witness :
  exists out,
    clean_dataframe report_sheet = Ok out
    /\ columns out = [Str "INVOICE"; Str "CUSTOMER"; Str "AMOUNT"]
    /\ List.length (rows out) = 3.
Proof.
  destruct (header_found_rows_are_below_header report_sheet 0
              eq_refl eq_refl eq_refl) as [out [Hout [Hcols [Hrows _]]]].
  exists out. split; [exact Hout|]. split; [exact Hcols|].
  rewrite Hrows. reflexivity.
Defined.

(** A header row with nothing but blank rows below it (or no row at all)
    gives the header cells as columns and no rows, without an error, even
    when the header repeats a label. *)
Theorem header_without_data_gives_no_rows (df : DataFrame) (k : nat) :
  empty df = false ->
  header_row_idx df = Some k ->
  (forall r, In r (skipn (k + 1) (rows df)) -> has_value r = false) ->
  clean_dataframe df = Ok (mkDataFrame (nth k (rows df) []) []).
Proof.
  intros Hne Hk Hblank. unfold clean_dataframe. rewrite Hne, Hk.
  unfold header_path, dropna_all. cbn [columns rows].
  assert (Hnil : filter (existsb notna) (skipn (k + 1) (rows df)) = []).
  { apply existsb_false_filter. apply not_true_iff_false.
    rewrite existsb_exists. intros [r [Hr Hv]].
    specialize (Hblank r Hr). unfold has_value in Hblank. congruence. }
  rewrite Hnil. reflexivity.
Qed.

Lemma header_without_data_gives_no_rows_witness :
  clean_dataframe header_only_sheet
  = Ok (mkDataFrame [Str "INVOICE"; Str "AMOUNT"] []).
Proof.
  apply (header_without_data_gives_no_rows header_only_sheet 1 eq_refl eq_refl).
  intros r Hr. cbn in Hr. destruct Hr as [<- | []]. reflexivity.
Defined.

(** When the first cell of the header row labels two columns or more and
    some row below the header holds a value, [clean_dataframe] does not
    return: selecting the first column gives a DataFrame, which has no
    [.str], and AttributeError is raised. *)
Theorem repeated_first_header_label_raises (df : DataFrame) (k : nat) :
  empty df = false ->
  header_row_idx df = Some k ->
  2 <= label_count (nth k (rows df) []) (hd NaN (nth k (rows df) [])) ->
  (exists r, In r (skipn (k + 1) (rows df)) /\ has_value r = true) ->
  clean_dataframe df = Raise AttributeError.
Proof.
  intros Hne Hk Htwo [r [Hr Hv]]. unfold clean_dataframe. rewrite Hne, Hk.
  unfold header_path, dropna_all. cbn [columns rows].
  destruct (nth k (rows df) []) as [|first_col rest] eqn:Hhdr;
    [cbn in Htwo; lia|].
  cbn [hd] in Htwo.
  assert (Hdata : In r (filter (existsb notna) (skipn (k + 1) (rows df))))
    by (apply filter_In; now split).
  destruct (filter (existsb notna) (skipn (k + 1) (rows df))) as [|d data] eqn:Ed;
    [destruct Hdata|].
  unfold empty. cbn [columns rows List.length Nat.eqb orb negb].
  assert (Hin : label_in first_col (first_col :: rest) = true)
    by (apply label_in_In; now left).
  rewrite Hin. unfold getitem_str. cbn [columns rows].
  destruct (label_count (first_col :: rest) first_col) as [|[|n]]; try lia.
  cbn [index_of]. now rewrite Cell_eqb_refl.
Qed.

Lemma repeated_first_header_label_raises_witness :
  clean_dataframe dup_header_sheet = Raise AttributeError.
Proof.
  apply (repeated_first_header_label_raises dup_header_sheet 0 eq_refl eq_refl).
  - cbn. lia.
  - exists [Str "1001"; Str "1002"; Str "50.00"]. split; [now left | reflexivity].
Defined.

Lemma mentions_no_keyword_spec (r : Row) :
  mentions_no_keyword r = true <->
  forall kw c, In kw metadata_keywords_general -> In c r ->
    Py.contains (Py.upper kw) (Py.upper (str c)) = false.
Proof.
  unfold mentions_no_keyword, row_mentions. rewrite forallb_forall. split.
  - intros H kw c Hkw Hc. specialize (H kw Hkw).
    apply negb_true_iff in H.
    destruct (Py.contains _ _) eqn:E; [|reflexivity].
    assert (Hex : existsb (fun c => Py.contains (Py.upper kw) (Py.upper (str c))) r = true)
      by (apply existsb_exists; now exists c).
    congruence.
  - intros H kw Hkw. apply negb_true_iff, not_true_iff_false.
    rewrite existsb_exists. intros [c [Hc E]].
    rewrite (H kw c Hkw Hc) in E. discriminate.
Qed.

Lemma general_path_rows (df : DataFrame) :
  rows (general_path df)
  = filter (fun r => mentions_no_keyword r
                     && Float64.int_ge (count_notna r)
                          (thresh (List.length (columns df))))
      (rows df).
Proof.
  unfold general_path, dropna_thresh. cbn [rows].
  now rewrite drop_keywords_columns, drop_keywords_rows, filter_filter_andb.
Qed.

Lemma general_path_columns (df : DataFrame) :
  columns (general_path df) = columns df.
Proof.
  unfold general_path, dropna_thresh. cbn [columns].
  apply drop_keywords_columns.
Qed.

(** Without a header row, [clean_dataframe] keeps the column names and
    returns exactly the rows in which no cell holds one of the five
    keywords, whatever the letter case, and whose count of values reaches
    a fifth of the number of columns; a keyword in any cell, not only in
    the first, removes the row. *)
Theorem no_header_rows_are_keyword_free (df : DataFrame) :
  (Z.of_nat (List.length (columns df)) < 2 ^ 50)%Z ->
  empty df = false ->
  header_row_idx df = None ->
  exists out,
    clean_dataframe df = Ok out
    /\ columns out = columns df
    /\ rows out
       = filter (fun r => mentions_no_keyword r
                          && (Z.of_nat (List.length (columns df))
                              <=? 5 * count_notna r)%Z)
           (rows df)
    /\ forall r, In r (rows out) ->
         forall kw c, In kw metadata_keywords_general -> In c r ->
           Py.contains (Py.upper kw) (Py.upper (str c)) = false.
Proof.
  intros Hbound Hne Hnone. exists (general_path df).
  assert (Hrows : rows (general_path df)
       = filter (fun r => mentions_no_keyword r
                          && (Z.of_nat (List.length (columns df))
                              <=? 5 * count_notna r)%Z)
           (rows df)).
  { rewrite general_path_rows. apply filter_ext. intros r. f_equal.
    apply thresh_exact; unfold count_notna; lia. }
  split; [unfold clean_dataframe; now rewrite Hne, Hnone|].
  split; [apply general_path_columns|].
  split; [exact Hrows|].
  intros r Hr. rewrite Hrows in Hr. apply filter_In in Hr as [_ Hkeep].
  apply andb_true_iff in Hkeep as [Hno _].
  now apply mentions_no_keyword_spec.
Qed.

Lemma no_header_rows_are_keyword_free_witness :
  exists out,
    clean_dataframe report_without_header = Ok out
    /\ rows out = [ [Str "1001"; Str "Acme"] ].
Proof.
  assert (Hbound : (Z.of_nat (List.length (columns report_without_header)) < 2 ^ 50)%Z)
    by (vm_compute; reflexivity).
  destruct (no_header_rows_are_keyword_free report_without_header
              Hbound eq_refl eq_refl) as [out [Hout [_ [Hrows _]]]].
  exists out. split; [exact Hout|]. rewrite Hrows. reflexivity.
Defined.

Lemma DataFrame_eta (df : DataFrame) :
  mkDataFrame (columns df) (rows df) = df.
Proof.
  now destruct df.
Qed.

(** Cleaning a sheet without header row a second time changes nothing:
    what [clean_dataframe] returns for it comes back from
    [clean_dataframe] as it is. *)
Theorem no_header_cleaning_is_idempotent (df out : DataFrame) :
  header_row_idx df = None ->
  clean_dataframe df = Ok out ->
  clean_dataframe out = Ok out.
Proof.
  intros Hnone H. unfold clean_dataframe in H.
  destruct (empty df) eqn:Hne.
  { injection H as <-. unfold clean_dataframe. now rewrite Hne. }
  rewrite Hnone in H. injection H as <-.
  set (out := general_path df).
  unfold clean_dataframe. destruct (empty out) eqn:He; [reflexivity|].
  assert (Hsub : forall r, In r (rows out) -> In r (rows df)).
  { intros r Hr. unfold out in Hr. rewrite general_path_rows in Hr.
    now apply filter_In in Hr. }
  assert (Hstill : header_row_idx out = None).
  { unfold header_row_idx in *. apply find_header_None.
    intros row Hrow. apply (proj1 (find_header_None _ _) Hnone). now apply Hsub. }
  rewrite Hstill. f_equal.
  rewrite <- (DataFrame_eta (general_path out)).
  rewrite <- (DataFrame_eta out) at 3.
  f_equal; try apply general_path_columns.
  rewrite general_path_rows. apply filter_all.
  intros r Hr. unfold out in Hr |- *.
  rewrite general_path_columns.
  rewrite general_path_rows in Hr. now apply filter_In in Hr.
Qed.

Lemma no_header_cleaning_is_idempotent_witness :
  clean_dataframe (mkDataFrame [Int 0; Int 1] [ [Str "1001"; Str "Acme"] ])
  = Ok (mkDataFrame [Int 0; Int 1] [ [Str "1001"; Str "Acme"] ]).
Proof.
  apply (no_header_cleaning_is_idempotent report_without_header _ eq_refl eq_refl).
Defined.

(* ===================================================================== *)
(** ** More on the run *)
(* ===================================================================== *)



Lemma glob_xlsx_spec (l : list XlsxFile) (f : XlsxFile) :
  In f (glob_xlsx l) <-> In f l /\ Py.endswith ".xlsx" (name f) = true.
Proof.
  unfold glob_xlsx. apply filter_In.
Qed.

Lemma no_frames_no_survivor (xs : list XlsxFile) :
  flat_map frame_of xs = [] <-> forall f, In f xs -> survives f = false.
Proof.
  split; [|apply frames_nil].
  intros Hnil f Hf. destruct (survives f) eqn:Hs; [|reflexivity].
  exfalso. now apply (frames_nonempty xs f Hf Hs).
Qed.

Section MoreMoves.

Variable can_move : string -> bool.

(** What is left in the ready folder was there before, and no moved file
    bears its name. *)
Lemma moves_ready_inv (ps : list XlsxFile) (fs : Folders) (f : XlsxFile) :
  In f (ready (fold_left (move can_move) ps fs)) ->
  In f (ready fs)
  /\ forall p, In p ps -> can_move (name p) = true -> name p <> name f.
Proof.
  revert fs. induction ps as [|p ps IH]; intros fs Hf; simpl in Hf.
  - split; [assumption | intros p []].
  - apply IH in Hf as [Hf Hps]. unfold move in Hf.
    destruct (can_move (name p)) eqn:Hmv.
    + cbn [ready] in Hf. apply remove_named_In in Hf as [Hf Hne].
      split; [assumption|].
      intros q [<- | Hq] Hq'; [congruence | now apply Hps].
    + split; [assumption|].
      intros q [<- | Hq] Hq'; [congruence | now apply Hps].
Qed.

Lemma moves_keep_ready_if (ps : list XlsxFile) (fs : Folders) (f : XlsxFile) :
  In f (ready fs) ->
  (forall p, In p ps -> can_move (name p) = true -> name p <> name f) ->
  In f (ready (fold_left (move can_move) ps fs)).
Proof.
  revert fs. induction ps as [|p ps IH]; intros fs Hf Hps; simpl;
    [assumption|].
  apply IH; [|intros q Hq; apply Hps; now right].
  unfold move. destruct (can_move (name p)) eqn:Hmv; [|assumption].
  cbn [ready]. apply remove_named_In. split; [assumption|].
  intros Heq. apply (Hps p (or_introl eq_refl) Hmv). now symmetry.
Qed.

End MoreMoves.

Section MoreRunFacts.

Variable output_folder : string.
Variable timestamp : string.
Variable can_move : string -> bool.

Local Abbreviation compile := (compile_xlsx_to_csv output_folder timestamp can_move).

(** The run returns [None] exactly when no file found reads into a
    non-empty frame, and then the folders are what they were. *)
Theorem returns_none_iff_nothing_survives (fs fs' : Folders)
    (ofn : option string) :
  compile fs ofn = Ok (fs', None) <->
  fs' = fs /\ forall f, In f (glob_xlsx (ready fs)) -> survives f = false.
Proof.
  split.
  - intros H. apply compile_inv in H as [[_ [-> Hnil]] | [c [Hr _]]];
      [|discriminate].
    split; [reflexivity | now apply no_frames_no_survivor].
  - intros [-> H]. apply compile_nothing. now apply no_frames_no_survivor.
Qed.

(** The run loses no file and brings none in: with distinct names in the
    ready folder, every file that was in the ready folder is afterwards in
    the ready folder or in the done folder, and every file of the ready
    folder afterwards was there before. *)
Theorem run_loses_no_file (fs fs' : Folders) (ofn r : option string) :
  NoDup (map name (ready fs)) ->
  compile fs ofn = Ok (fs', r) ->
  (forall f, In f (ready fs) -> In f (ready fs') \/ In f (done fs'))
  /\ (forall f, In f (ready fs') -> In f (ready fs)).
Proof.
  intros Hnd Hrun.
  apply compile_inv in Hrun as [[_ [-> _]] | [combined [_ [_ [_ ->]]]]].
  { split; [intros f Hf; now left | auto]. }
  unfold after_run. split.
  - intros f Hf.
    set (ps := filter survives (glob_xlsx (ready fs))).
    assert (Hps : forall p, In p ps -> In p (ready fs)).
    { intros p [Hp _]%filter_In. now apply glob_xlsx_In in Hp. }
    destruct (can_move (name f)) eqn:Hmv.
    + destruct (in_dec string_dec (name f) (map name ps)) as [Hin | Hout].
      * right. apply in_map_iff in Hin as [p [Hn Hp]].
        rewrite (NoDup_name_inj (ready fs) p f Hnd (Hps p Hp) Hf Hn) in Hp.
        apply moves_reach_done; [|assumption|assumption].
        apply NoDup_map_filter. unfold glob_xlsx. now apply NoDup_map_filter.
      * left. apply moves_keep_ready_if; [assumption|].
        intros p Hp _ Heq. apply Hout. rewrite <- Heq. now apply in_map.
    + left. apply moves_keep_ready_if; [assumption|].
      intros p Hp Hmvp Heq. rewrite Heq in Hmvp. congruence.
  - intros f Hf. now apply moves_ready_inv in Hf as [Hf _].
Qed.

(** A file of the ready folder whose name does not end in .xlsx, in
    whatever letter case, is never read and never moved: it is not among the files found, it is still in
    the ready folder after the run, and no file of its name has entered
    the done folder. *)
Theorem other_files_are_left_alone (fs fs' : Folders) (ofn r : option string)
    (f : XlsxFile) :
  In f (ready fs) ->
  Py.endswith ".XLSX" (Py.upper (name f)) = false ->
  compile fs ofn = Ok (fs', r) ->
  ~ In f (glob_xlsx (ready fs))
  /\ In f (ready fs')
  /\ (~ In (name f) (map name (done fs)) ->
      ~ In (name f) (map name (done fs'))).
Proof.
  intros Hf Hupper Hrun.
  assert (Hext : Py.endswith ".xlsx" (name f) = false).
  { destruct (Py.endswith ".xlsx" (name f)) eqn:E; [|reflexivity].
    apply (endswith_upper ".xlsx") in E. cbn [Py.upper] in E.
    change (Py.endswith ".XLSX" (Py.upper (name f)) = true) in E. congruence. }
  assert (Hdiff : forall p, In p (filter survives (glob_xlsx (ready fs))) ->
                            name p <> name f).
  { intros p [Hp _]%filter_In Heq. apply glob_xlsx_spec in Hp as [_ Hp].
    rewrite Heq in Hp. congruence. }
  split; [intros [_ H]%glob_xlsx_spec; congruence|].
  apply compile_inv in Hrun as [[_ [-> _]] | [combined [_ [_ [_ ->]]]]].
  { now split. }
  unfold after_run. split.
  - now apply moves_keep_ready.
  - intros Hnot Hin. apply moves_done_names in Hin as [Hin | Hin];
      [now apply Hnot|].
    apply in_map_iff in Hin as [p [Hn Hp]]. now apply (Hdiff p).
Qed.

(** A move that fails is the business of its file alone: in a run that
    wrote a table, a recorded file whose move fails is still in the ready
    folder, every recorded file whose move goes through is in the done
    folder and no longer in the ready folder, and the table written is the
    one the run writes when every move goes through. *)
Theorem failed_move_is_isolated (fs fs' : Folders) (ofn : option string)
    (path : string) :
  NoDup (map name (ready fs)) ->
  compile fs ofn = Ok (fs', Some path) ->
  (forall g, In g (glob_xlsx (ready fs)) -> survives g = true ->
     can_move (name g) = false -> In g (ready fs'))
  /\ (forall g, In g (glob_xlsx (ready fs)) -> survives g = true ->
        can_move (name g) = true ->
        In g (done fs') /\ ~ In g (ready fs'))
  /\ (exists fs'',
        compile_xlsx_to_csv output_folder timestamp (fun _ => true) fs ofn
        = Ok (fs'', Some path)
        /\ output fs'' = output fs').
Proof.
  intros Hnd Hrun.
  apply compile_inv in Hrun as [[Hr _] | [combined [Hr [Hne [Hc ->]]]]];
    [discriminate|].
  injection Hr as ->. unfold after_run.
  set (ps := filter survives (glob_xlsx (ready fs))).
  assert (Hps : forall p, In p ps -> In p (ready fs)).
  { intros p [Hp _]%filter_In. now apply glob_xlsx_In in Hp. }
  split; [|split].
  - intros g Hg Hs Hmv. apply moves_keep_ready_if; [now apply glob_xlsx_In|].
    intros p Hp Hmvp Heq.
    rewrite (NoDup_name_inj (ready fs) p g Hnd (Hps p Hp)
               (glob_xlsx_In _ _ Hg) Heq) in Hmvp.
    congruence.
  - intros g Hg Hs Hmv.
    assert (Hgp : In g ps) by (apply filter_In; now split).
    split.
    + apply moves_reach_done; [|assumption|assumption].
      apply NoDup_map_filter. unfold glob_xlsx. now apply NoDup_map_filter.
    + intros Hin. apply moves_ready_inv in Hin as [_ Hin].
      now apply (Hin g Hgp Hmv).
  - eexists. split.
    + rewrite (compile_something output_folder timestamp (fun _ => true) fs ofn Hne), Hc.
      reflexivity.
    + unfold after_run. now rewrite !moves_output.
Qed.


(** Files are not processed twice: after a run in which the move of every
    recorded file went through, a further run, whatever its time stamp,
    its output name and the fate of its moves, finds nothing to process,
    returns [None] and leaves the folders as they are. *)
Theorem second_run_finds_nothing (fs fs' : Folders) (ofn r : option string) :
  compile fs ofn = Ok (fs', r) ->
  (forall g, In g (glob_xlsx (ready fs)) -> survives g = true ->
             can_move (name g) = true) ->
  forall timestamp' can_move' ofn',
    compile_xlsx_to_csv output_folder timestamp' can_move' fs' ofn' = Ok (fs', None).
Proof.
  intros Hrun Hmoves timestamp' can_move' ofn'.
  apply compile_nothing, no_frames_no_survivor.
  intros f Hf. destruct (survives f) eqn:Hs; [exfalso | reflexivity].
  apply glob_xlsx_spec in Hf as [Hf Hext].
  apply compile_inv in Hrun as [[_ [-> Hnil]] | [combined [_ [_ [_ ->]]]]].
  - assert (Hg : In f (glob_xlsx (ready fs))) by (apply glob_xlsx_spec; now split).
    rewrite (proj1 (no_frames_no_survivor _) Hnil f Hg) in Hs. discriminate.
  - unfold after_run in Hf. apply moves_ready_inv in Hf as [Hf Hnone].
    assert (Hg : In f (glob_xlsx (ready fs))) by (apply glob_xlsx_spec; now split).
    apply (Hnone f); [apply filter_In; now split | now apply Hmoves | reflexivity].
Qed.

(** The table a run writes is well formed when the frames read are: its
    labels are pairwise distinct and each of its rows is as wide as its
    header. *)
Theorem written_table_is_well_formed (fs fs' : Folders) (ofn : option string)
    (path : string) (combined : DataFrame) :
  (forall g df, In g (glob_xlsx (ready fs)) -> read_excel g = Ok df ->
                well_formed df = true) ->
  compile fs ofn = Ok (fs', Some path) ->
  lookup path (output fs') = Some combined ->
  well_formed combined = true.
Proof.
  intros Hwf Hrun Hlook.
  apply compile_inv in Hrun as [[Hr _] | [combined' [Hr [_ [Hc ->]]]]];
    [discriminate|].
  injection Hr as ->. unfold after_run in Hlook.
  rewrite moves_output in Hlook. cbn [output] in Hlook.
  rewrite lookup_to_csv in Hlook. injection Hlook as ->.
  pose proof (frames_well_formed _ Hwf) as Hwft.
  destruct (concat_spec _ _ Hwft Hc) as [Hcols Hrows].
  apply well_formed_spec. split.
  - rewrite Hcols. unfold union_columns. apply fold_union_NoDup; [constructor|].
    intros d Hd. now apply Hwft, well_formed_spec in Hd as [Hd _].
  - intros m Hm. rewrite Hrows in Hm.
    apply in_flat_map in Hm as [t [_ Hm]]. unfold reindex in Hm.
    apply in_map_iff in Hm as [r' [<- _]]. unfold reindex_row.
    apply length_map.
Qed.

End MoreRunFacts.

Section MainFacts.

Variable timestamp : string.
Variable can_move : string -> bool.

(** [main] reports what the run did: "no files processed" exactly when no
    file found reads into a non-empty frame, the folders being then as
    they were; and a completed run exactly when the run returned a path,
    which is then the time-stamp name under the folder CSV.  The test
    [if result:] never takes a returned path for nothing, as no path is
    empty. *)
Theorem main_reports_the_run (fs fs' : Folders) :
  (main timestamp can_move fs = Ok (fs', NoFilesProcessed) <->
   fs' = fs /\ forall f, In f (glob_xlsx (ready fs)) -> survives f = false)
  /\ (forall path,
        main timestamp can_move fs = Ok (fs', Completed path) <->
        compile_xlsx_to_csv "CSV" timestamp can_move fs None
        = Ok (fs', Some path))
  /\ (forall path,
        main timestamp can_move fs = Ok (fs', Completed path) ->
        path = ("CSV/combined_data_" ++ timestamp ++ ".csv")%string).
Proof.
  assert (Hpath : forall fs1 p,
            compile_xlsx_to_csv "CSV" timestamp can_move fs None
            = Ok (fs1, Some p) ->
            p = ("CSV/combined_data_" ++ timestamp ++ ".csv")%string).
  { intros fs1 p H.
    apply compile_inv in H as [[Hr _] | [c [Hr _]]]; [discriminate|].
    injection Hr as ->. unfold output_file_path, output_name.
    assert (Hts : Py.endswith ".csv" ("combined_data_" ++ timestamp ++ ".csv") = true)
      by (rewrite <- string_app_assoc; apply endswith_app).
    now rewrite Hts. }
  unfold main.
  destruct (compile_xlsx_to_csv "CSV" timestamp can_move fs None)
    as [[fs1 [p|]] | e] eqn:Erun.
  - pose proof (Hpath fs1 p eq_refl) as Hp.
    assert (Hne : String.eqb p "" = false) by (rewrite Hp; reflexivity).
    rewrite Hne. cbn [negb].
    split; [|split].
    + split; [discriminate|]. intros [-> Hnone].
      assert (Hnil : compile_xlsx_to_csv "CSV" timestamp can_move fs None
                     = Ok (fs, None))
        by (apply compile_nothing; now apply no_frames_no_survivor).
      rewrite Erun in Hnil. discriminate.
    + intros path. split; intros H; injection H as -> ->; reflexivity.
    + intros path H. injection H as -> <-. exact Hp.
  - split; [|split].
    + split.
      * intros H. injection H as ->.
        apply compile_inv in Erun as [[_ [-> Hnil]] | [c [Hr _]]];
          [|discriminate].
        split; [reflexivity | now apply no_frames_no_survivor].
      * intros [-> Hnone].
        assert (Hnil : compile_xlsx_to_csv "CSV" timestamp can_move fs None
                       = Ok (fs, None))
          by (apply compile_nothing; now apply no_frames_no_survivor).
        rewrite Erun in Hnil. now injection Hnil as ->.
    + intros path. split; discriminate.
    + discriminate.
  - split; [|split].
    + split; [discriminate|]. intros [-> Hnone].
      assert (Hnil : compile_xlsx_to_csv "CSV" timestamp can_move fs None
                     = Ok (fs, None))
        by (apply compile_nothing; now apply no_frames_no_survivor).
      rewrite Erun in Hnil. discriminate.
    + intros path. split; discriminate.
    + discriminate.
Qed.

End MainFacts.

(** Setting the [source_file] column keeps the data of a well-formed
    frame: the frame stays well formed with as many rows; a frame that had
    no such column gets it as its last column, a frame that had one keeps
    its columns and has that column overwritten; and each row then reads
    the file name under [source_file] and what it read before under every
    other label. *)
Theorem source_file_tag_keeps_data (df : DataFrame) (n : string) :
  well_formed df = true ->
  well_formed (setitem df source_file (Str n)) = true
  /\ List.length (rows (setitem df source_file (Str n)))
     = List.length (rows df)
  /\ (In source_file (columns df) ->
      columns (setitem df source_file (Str n)) = columns df)
  /\ (~ In source_file (columns df) ->
      columns (setitem df source_file (Str n)) = columns df ++ [source_file])
  /\ (forall i r, nth_error (rows df) i = Some r ->
        exists r',
          nth_error (rows (setitem df source_file (Str n))) i = Some r'
          /\ cell_at (columns (setitem df source_file (Str n))) r' source_file
             = Str n
          /\ forall c, c <> source_file ->
               cell_at (columns (setitem df source_file (Str n))) r' c
               = cell_at (columns df) r c).
Proof.
  intros Hwf. pose proof Hwf as Hspec. apply well_formed_spec in Hspec as [_ Hlen].
  split; [now apply well_formed_setitem|].
  split; [unfold setitem; cbn [rows]; apply length_map|].
  split; [|split; [apply setitem_columns_new|]].
  - intros Hin. apply label_in_In in Hin. unfold setitem. cbn [columns].
    now rewrite Hin.
  - intros i r Hr.
    exists (setitem_row (columns df) source_file (Str n) r).
    assert (Hrlen : List.length r = List.length (columns df))
      by (apply Hlen; now apply nth_error_In in Hr).
    split; [|split].
    + unfold setitem at 1. cbn [rows]. rewrite nth_error_map, Hr. reflexivity.
    + now apply cell_at_setitem_label.
    + intros c Hne.
      destruct (in_dec Cell_eq_dec c (columns df)) as [Hin | Hout].
      * now apply cell_at_setitem_other.
      * rewrite (cell_at_absent (columns df)) by assumption.
        apply cell_at_absent. rewrite setitem_columns_In.
        intros [? | ?]; contradiction.
Qed.

Lemma source_file_tag_keeps_data_witness :
  columns (setitem (mkDataFrame [Str "A"; source_file] [ [Int 1; Str "old"] ])
             source_file (Str "ab.xlsx"))
  = [Str "A"; source_file].
Proof.
  apply (proj1 (proj2 (proj2
           (source_file_tag_keeps_data
              (mkDataFrame [Str "A"; source_file] [ [Int 1; Str "old"] ])
              "ab.xlsx" eq_refl)))).
  cbn. right. now left.
Defined.

Lemma returns_none_iff_nothing_survives_witness :
  compile_xlsx_to_csv "CSV" "20240101_000000" all_but_ab nothing_survives
    (Some "out")
  = Ok (nothing_survives, None).
Proof.
  apply (proj2 (returns_none_iff_nothing_survives "CSV" "20240101_000000"
                  all_but_ab nothing_survives nothing_survives (Some "out"))).
  split; [reflexivity|].
  intros f Hf. cbn in Hf. destruct Hf as [<- | [<- | []]]; reflexivity.
Defined.

Lemma run_loses_no_file_witness :
  exists fs' r,
    compile_xlsx_to_csv "CSV" "20240101_000000" all_but_ab mixed_folder None
    = Ok (fs', r)
    /\ (In (mkXlsxFile "ab.xlsx" (Ok table_AB)) (ready fs')
        \/ In (mkXlsxFile "ab.xlsx" (Ok table_AB)) (done fs')).
Proof.
  eexists. eexists. split; [vm_compute; reflexivity|].
  assert (Hnd : NoDup (map name (ready mixed_folder))) by distinct_names.
  refine (proj1 (run_loses_no_file "CSV" "20240101_000000" all_but_ab
                   mixed_folder _ None _ Hnd _)
            (mkXlsxFile "ab.xlsx" (Ok table_AB)) _).
  - vm_compute. reflexivity.
  - cbn. right. now left.
Defined.

Lemma other_files_are_left_alone_witness :
  exists fs' r,
    compile_xlsx_to_csv "CSV" "20240101_000000" (fun _ => true) folder_with_notes None
    = Ok (fs', r)
    /\ In (mkXlsxFile "notes.txt" (Ok table_BC)) (ready fs').
Proof.
  eexists. eexists. split; [vm_compute; reflexivity|].
  refine (proj1 (proj2 (other_files_are_left_alone "CSV" "20240101_000000"
                          (fun _ => true) folder_with_notes _ None _
                          (mkXlsxFile "notes.txt" (Ok table_BC)) _ eq_refl _))).
  - cbn. now left.
  - vm_compute. reflexivity.
Defined.

Lemma failed_move_is_isolated_witness :
  exists fs',
    compile_xlsx_to_csv "CSV" "20240101_000000" all_but_ab tables_AB_BC (Some "out.csv")
    = Ok (fs', Some "CSV/out.csv")
    /\ In (mkXlsxFile "ab.xlsx" (Ok table_AB)) (ready fs').
Proof.
  eexists. split; [vm_compute; reflexivity|].
  assert (Hnd : NoDup (map name (ready tables_AB_BC))) by distinct_names.
  refine (proj1 (failed_move_is_isolated "CSV" "20240101_000000" all_but_ab
                   tables_AB_BC _ (Some "out.csv") "CSV/out.csv" Hnd _)
            (mkXlsxFile "ab.xlsx" (Ok table_AB)) _ eq_refl eq_refl).
  - vm_compute. reflexivity.
  - cbn. now left.
Defined.


Lemma second_run_finds_nothing_witness :
  exists fs',
    compile_xlsx_to_csv "CSV" "20240101_000000" (fun _ => true) mixed_folder None
    = Ok (fs', Some "CSV/combined_data_20240101_000000.csv")
    /\ compile_xlsx_to_csv "CSV" "20240102_000000" (fun _ => true) fs' None
       = Ok (fs', None).
Proof.
  eexists. split; [vm_compute; reflexivity|].
  refine (second_run_finds_nothing "CSV" "20240101_000000" (fun _ => true)
            mixed_folder _ None (Some "CSV/combined_data_20240101_000000.csv")
            _ _ "20240102_000000" (fun _ => true) None).
  - vm_compute. reflexivity.
  - reflexivity.
Defined.

Lemma written_table_is_well_formed_witness :
  exists fs' combined,
    compile_xlsx_to_csv "CSV" "20240101_000000" (fun _ => true) tables_AB_BC
      (Some "out.csv") = Ok (fs', Some "CSV/out.csv")
    /\ lookup "CSV/out.csv" (output fs') = Some combined
    /\ well_formed combined = true.
Proof.
  eexists. eexists. split; [vm_compute; reflexivity|].
  split; [reflexivity|].
  refine (written_table_is_well_formed "CSV" "20240101_000000" (fun _ => true)
            tables_AB_BC _ (Some "out.csv") "CSV/out.csv" _ _ _ _).
  - intros g df Hg Eg. cbn in Hg.
    destruct Hg as [<- | [<- | []]]; injection Eg as <-; reflexivity.
  - vm_compute. reflexivity.
  - reflexivity.
Defined.

Lemma main_reports_the_run_witness :
  main "20240101_000000" (fun _ => true) nothing_survives
  = Ok (nothing_survives, NoFilesProcessed)
  /\ exists fs',
       main "20240101_000000" (fun _ => true) mixed_folder
       = Ok (fs', Completed "CSV/combined_data_20240101_000000.csv").
Proof.
  split.
  - apply (proj2 (proj1 (main_reports_the_run "20240101_000000" (fun _ => true)
                           nothing_survives nothing_survives))).
    split; [reflexivity|].
    intros f Hf. cbn in Hf. destruct Hf as [<- | [<- | []]]; reflexivity.
  - eexists.
    refine (proj2 (proj1 (proj2 (main_reports_the_run "20240101_000000"
                                   (fun _ => true) mixed_folder _))
                     "CSV/combined_data_20240101_000000.csv") _).
    vm_compute. reflexivity.
Defined.

(* ===================================================================== *)
(** ** Indicators and cells *)
(* ===================================================================== *)

Lemma startswith_before_space (p a b : string) :
  no_space p = true ->
  Py.startswith p (a ++ String " " b) = Py.startswith p a.
Proof.
  revert a. induction p as [|x p IH]; intros a Hp; [reflexivity|].
  cbn [no_space] in Hp. apply andb_true_iff in Hp as [Hx Hp].
  apply negb_true_iff in Hx.
  destruct a as [|y a]; cbn [append Py.startswith].
  - now rewrite Hx.
  - now rewrite IH.
Qed.

Lemma contains_around_space (p a b : string) :
  p <> ""%string -> no_space p = true ->
  Py.contains p (a ++ String " " b) = Py.contains p a || Py.contains p b.
Proof.
  intros Hne Hp. induction a as [|y a IH].
  - destruct p as [|x p]; [contradiction|].
    cbn [no_space] in Hp. apply andb_true_iff in Hp as [Hx _].
    apply negb_true_iff in Hx.
    cbn [append Py.contains Py.startswith]. now rewrite Hx.
  - cbn [append Py.contains]. rewrite IH.
    rewrite <- (startswith_before_space p (String y a) b Hp). cbn [append].
    now rewrite !orb_assoc.
Qed.

Lemma contains_join (p : string) (l : list string) :
  p <> ""%string -> no_space p = true ->
  Py.contains p (Py.join " " l) = existsb (Py.contains p) l.
Proof.
  intros Hne Hp. induction l as [|x l IH].
  - destruct p; [contradiction | reflexivity].
  - destruct l as [|y l].
    + cbn [Py.join existsb]. now rewrite orb_false_r.
    + change (Py.join " " (x :: y :: l))
        with (x ++ String " " (Py.join " " (y :: l)))%string.
      rewrite contains_around_space, IH by assumption. reflexivity.
Qed.

(** An indicator is found in a row exactly when it occurs inside one of
    the non-missing cells of the row, upper-cased: no indicator is ever
    put together from two neighbouring cells. *)
Theorem indicator_is_found_within_one_cell (row : Row) (indicator : string) :
  In indicator header_indicators ->
  (Py.contains indicator (row_str row) = true <->
   exists cell, In cell row /\ notna cell = true
                /\ Py.contains indicator (Py.upper (str cell)) = true).
Proof.
  intros Hind.
  assert (Hok : indicator <> ""%string /\ no_space indicator = true).
  { unfold header_indicators in Hind. cbn [In] in Hind.
    repeat (destruct Hind as [<- | Hind]; [split; [discriminate | reflexivity]|]).
    destruct Hind. }
  destruct Hok as [Hne Hsp].
  unfold row_str. rewrite contains_join by assumption.
  rewrite existsb_exists. split.
  - intros [s [Hs Hc]]. apply in_map_iff in Hs as [cell [<- Hcell]].
    apply filter_In in Hcell as [Hin Hna]. now exists cell.
  - intros [cell [Hin [Hna Hc]]]. exists (Py.upper (str cell)).
    split; [|assumption].
    apply in_map_iff. exists cell. split; [reflexivity | now apply filter_In].
Qed.

Lemma indicator_is_found_within_one_cell_witness :
  Py.contains "INVOICE" (row_str [NaN; Str "Invoice no"]) = true.
Proof.
  apply (proj2 (indicator_is_found_within_one_cell [NaN; Str "Invoice no"]
                  "INVOICE" ltac:(cbn; tauto))).
  exists (Str "Invoice no"). split; [cbn; tauto | split; reflexivity].
Defined.

(* ===================================================================== *)
(** ** Shape of the cleaned frame *)
(* ===================================================================== *)

Lemma rectangular_spec (df : DataFrame) :
  rectangular df = true <->
  forall r, In r (rows df) -> List.length r = List.length (columns df).
Proof.
  unfold rectangular. rewrite forallb_forall.
  split; intros H r Hr; [now apply Nat.eqb_eq, H | now apply Nat.eqb_eq, H].
Qed.

(** [clean_dataframe] keeps frames rectangular: when each row of the input
    is as wide as its header, each row of the result is as wide as the
    header of the result. *)
Theorem clean_dataframe_keeps_rectangular (df out : DataFrame) :
  rectangular df = true ->
  clean_dataframe df = Ok out ->
  rectangular out = true.
Proof.
  rewrite !rectangular_spec. intros Hrect H.
  assert (Hwidth : List.length (columns out) = List.length (columns df)).
  { unfold clean_dataframe in H. destruct (empty df).
    - now injection H as <-.
    - destruct (header_row_idx df) as [k|] eqn:Hk.
      + rewrite (header_path_columns df k out H).
        apply Hrect. apply nth_In.
        unfold header_row_idx in Hk. apply find_header_bound in Hk. lia.
      + injection H as <-. now rewrite general_path_columns. }
  intros r Hr. rewrite Hwidth. apply Hrect.
  assert (Hsel : exists n keep, rows out = filter keep (skipn n (rows df))).
  { unfold clean_dataframe in H. destruct (empty df).
    - injection H as <-. exists 0, (fun _ => true).
      symmetry. apply filter_all. reflexivity.
    - destruct (header_row_idx df) as [k|].
      + apply header_path_selects in H as [keep ->].
        rewrite filter_filter_andb.
        now exists (k + 1), (fun x => has_value x && keep x).
      + injection H as <-. unfold general_path, dropna_thresh. cbn [rows].
        rewrite drop_keywords_rows, filter_filter_andb.
        now eexists 0, _. }
  destruct Hsel as [n [keep Hrows]]. rewrite Hrows in Hr.
  apply filter_In in Hr as [Hr _]. now apply In_skipn_In in Hr.
Qed.

Lemma clean_dataframe_keeps_rectangular_witness :
  rectangular (mkDataFrame [Str "INVOICE"; Str "CUSTOMER"; Str "AMOUNT"]
                 [ [Str "1001"; Str "Acme"; Str "50.00"] ]) = true.
Proof.
  apply (clean_dataframe_keeps_rectangular Sheet1 _ eq_refl eq_refl).
Defined.

Lemma find_header_shift (rs : list Row) (idx n : nat) :
  find_header (n + idx) rs
  = match find_header idx rs with
    | Some k => Some (n + k)
    | None => None
    end.
Proof.
  revert idx. induction rs as [|row rs IH]; intros idx; simpl; [reflexivity|].
  destruct (is_header_row row); [reflexivity|].
  rewrite <- IH. f_equal. lia.
Qed.

Lemma find_header_skip (above rs : list Row) (idx : nat) :
  (forall r, In r above -> indicators_found (row_str r) < 2) ->
  find_header idx (above ++ rs) = find_header (List.length above + idx) rs.
Proof.
  revert idx. induction above as [|a above IH]; intros idx H; simpl;
    [reflexivity|].
  assert (Ha : is_header_row a = false)
    by (apply is_header_row_false, H; now left).
  rewrite Ha, IH by (intros r Hr; apply H; now right).
  f_equal. lia.
Qed.

(** Rows above the header that count fewer than two indicators (titles,
    report dates, blank lines) have no effect on the result: when a header
    row is found in a sheet, the sheet with such rows put on top is
    cleaned into the same frame. *)
Theorem rows_above_the_header_do_not_matter (cols : list Cell)
    (above body : list Row) (k : nat) :
  (forall r, In r above -> indicators_found (row_str r) < 2) ->
  cols <> [] ->
  header_row_idx (mkDataFrame cols body) = Some k ->
  clean_dataframe (mkDataFrame cols (above ++ body))
  = clean_dataframe (mkDataFrame cols body).
Proof.
  intros Habove Hcols Hk.
  assert (Hlt : k < List.length body).
  { unfold header_row_idx in Hk. cbn [rows] in Hk.
    apply find_header_bound in Hk. lia. }
  assert (Hk' : header_row_idx (mkDataFrame cols (above ++ body))
                = Some (List.length above + k)).
  { unfold header_row_idx in *. cbn [rows] in *.
    rewrite find_header_skip by assumption.
    rewrite find_header_shift. now rewrite Hk. }
  unfold clean_dataframe. rewrite Hk', Hk.
  assert (He : forall rs : list Row, rs <> [] ->
                 empty (mkDataFrame cols rs) = false).
  { intros rs Hrs. unfold empty. cbn [columns rows].
    destruct rs; [contradiction|]. destruct cols; [contradiction | reflexivity]. }
  rewrite !He.
  - unfold header_path. cbn [columns rows].
    rewrite app_nth2 by lia.
    replace (List.length above + k - List.length above) with k by lia.
    replace (List.length above + k + 1) with (List.length above + (k + 1)) by lia.
    rewrite skipn_app.
    replace (List.length above + (k + 1) - List.length above) with (k + 1) by lia.
    rewrite skipn_all2 by lia. reflexivity.
  - intros ->. simpl in Hlt. lia.
  - intros Happ. destruct body; [simpl in Hlt; lia|].
    now destruct above.
Qed.

Lemma rows_above_the_header_do_not_matter_witness :
  clean_dataframe
    (mkDataFrame [Int 0; Int 1]
       ([ [Str "Monthly Billing Summary"; NaN]; [NaN; NaN] ]
        ++ [ [Str "INVOICE"; Str "AMOUNT"]; [Str "1001"; Str "50.00"] ]))
  = clean_dataframe
      (mkDataFrame [Int 0; Int 1]
         [ [Str "INVOICE"; Str "AMOUNT"]; [Str "1001"; Str "50.00"] ]).
Proof.
  apply (rows_above_the_header_do_not_matter [Int 0; Int 1]
           [ [Str "Monthly Billing Summary"; NaN]; [NaN; NaN] ]
           [ [Str "INVOICE"; Str "AMOUNT"]; [Str "1001"; Str "50.00"] ] 0).
  - intros r [<- | [<- | []]]; vm_compute; lia.
  - discriminate.
  - reflexivity.
Defined.

(* ===================================================================== *)
(** ** The header row selected *)
(* ===================================================================== *)

Lemma header_row_idx_Some (df : DataFrame) (k : nat) :
  header_row_idx df = Some k <->
  exists row, nth_error (rows df) k = Some row
    /\ 2 <= indicators_found (row_str row)
    /\ forall j r, j < k -> nth_error (rows df) j = Some r ->
         indicators_found (row_str r) < 2.
Proof.
  unfold header_row_idx. rewrite find_header_Some. split.
  - intros [j [row [-> H]]]. now exists row.
  - intros [row H]. now exists k, row.
Qed.

(** An indicator is in the text of a row exactly when some non-missing
    cell, printed and upper-cased, reads some text, then the indicator,
    then some text. *)
Lemma indicator_in_row_text (row : Row) (indicator : string) :
  In indicator header_indicators ->
  (Py.contains indicator (row_str row) = true <->
   exists cell pre post,
     In cell row /\ cell <> NaN
     /\ Py.upper (str cell) = (pre ++ indicator ++ post)%string).
Proof.
  intros Hind.
  assert (Hok : indicator <> ""%string /\ no_space indicator = true).
  { unfold header_indicators in Hind. cbn [In] in Hind.
    repeat (destruct Hind as [<- | Hind]; [split; [discriminate | reflexivity]|]).
    destruct Hind. }
  destruct Hok as [Hne Hsp].
  unfold row_str. rewrite contains_join by assumption.
  rewrite existsb_exists. split.
  - intros [s [Hs Hc]]. apply in_map_iff in Hs as [cell [<- Hcell]].
    apply filter_In in Hcell as [Hin Hna].
    apply contains_app in Hc as [pre [post Hc]].
    exists cell, pre, post.
    split; [assumption | split; [intros ->; discriminate | assumption]].
  - intros [cell [pre [post [Hin [Hna Hc]]]]]. exists (Py.upper (str cell)).
    split.
    + apply in_map_iff. exists cell. split; [reflexivity|].
      apply filter_In. split; [assumption | now destruct cell].
    + apply contains_app. now exists pre, post.
Qed.

(** C6.  The header row that [clean_dataframe] selects is the topmost row
    whose upper-cased, space-joined non-missing cell values contain two or
    more of the ten header indicators as substrings.  The text of a row
    is written out: the cells that are not missing, each printed and
    upper-cased, joined with one space.  [header_row_idx] is [Some k]
    exactly when row [k] counts at least two indicators in that text and
    every row above counts fewer; it is [None] exactly when no row counts
    two; a row counting exactly one is never selected; the rows below the
    first qualifying row have no say, however many indicators they hold;
    the selected row is the one the header-found branch works from.  An
    indicator counts exactly when it occurs as a substring of one
    non-missing cell, upper-cased; and the selection is the same for a
    sheet written in capitals. *)
Theorem header_row_is_first_with_two_indicators :
  (forall df k,
     header_row_idx df = Some k <->
     exists row, nth_error (rows df) k = Some row
       /\ 2 <= List.length
                 (filter
                    (fun indicator =>
                       Py.contains indicator
                         (Py.join " "
                            (map (fun cell => Py.upper (str cell))
                               (filter notna row))))
                    header_indicators)
       /\ forall j r, j < k -> nth_error (rows df) j = Some r ->
            List.length
              (filter
                 (fun indicator =>
                    Py.contains indicator
                      (Py.join " "
                         (map (fun cell => Py.upper (str cell))
                            (filter notna r))))
                 header_indicators) < 2)
  /\ (forall df,
        header_row_idx df = None <->
        forall row, In row (rows df) ->
          List.length
            (filter
               (fun indicator =>
                  Py.contains indicator
                    (Py.join " "
                       (map (fun cell => Py.upper (str cell))
                          (filter notna row))))
               header_indicators) < 2)
  /\ (forall df k row,
        header_row_idx df = Some k -> nth_error (rows df) k = Some row ->
        List.length
          (filter
             (fun indicator =>
                Py.contains indicator
                  (Py.join " "
                     (map (fun cell => Py.upper (str cell))
                        (filter notna row))))
             header_indicators) <> 1)
  /\ (forall cols above row below,
        (forall r, In r above ->
           List.length
             (filter
                (fun indicator =>
                   Py.contains indicator
                     (Py.join " "
                        (map (fun cell => Py.upper (str cell))
                           (filter notna r))))
                header_indicators) < 2) ->
        2 <= List.length
               (filter
                  (fun indicator =>
                     Py.contains indicator
                       (Py.join " "
                          (map (fun cell => Py.upper (str cell))
                             (filter notna row))))
                  header_indicators) ->
        header_row_idx (mkDataFrame cols (above ++ row :: below))
        = Some (List.length above))
  /\ (forall df k,
        empty df = false -> header_row_idx df = Some k ->
        clean_dataframe df = header_path df k)
  /\ (forall row indicator,
        In indicator header_indicators ->
        (Py.contains indicator
           (Py.join " "
              (map (fun cell => Py.upper (str cell)) (filter notna row)))
         = true <->
         exists cell pre post,
           In cell row /\ cell <> NaN
           /\ Py.upper (str cell) = (pre ++ indicator ++ post)%string))
  /\ (forall df, header_row_idx (upper_frame df) = header_row_idx df)
  /\ header_indicators
     = [ "CUSTOMER_INVOICE_NUMBER"; "ID"; "INVOICE"; "CUSTOMER"; "BILLING";
         "CURRENCY"; "DATE"; "AMOUNT"; "FEE"; "CHARGE" ]%string.
Proof.
  split; [exact header_row_idx_Some|].
  split; [exact (fun df => find_header_None (rows df) 0)|].
  split; [|split; [|split; [|split; [|split]]]].
  - intros df k row Hk Hrow.
    apply header_row_idx_Some in Hk as [row' [Hrow' [Hge _]]].
    rewrite Hrow in Hrow'. injection Hrow' as <-.
    unfold indicators_found, row_str in Hge. lia.
  - intros cols above row below Habove Hrow.
    apply header_row_idx_Some. exists row. cbn [rows].
    split; [|split].
    + rewrite nth_error_app2, Nat.sub_diag by lia. reflexivity.
    + exact Hrow.
    + intros j r Hj Hr. apply Habove.
      rewrite nth_error_app1 in Hr by assumption.
      now apply nth_error_In in Hr.
  - intros df k Hne Hk. unfold clean_dataframe. now rewrite Hne, Hk.
  - exact indicator_in_row_text.
  - intros df. unfold header_row_idx, upper_frame. cbn [rows].
    apply find_header_ext. intros row. unfold is_header_row.
    now rewrite row_str_upper_cells.
  - reflexivity.
Qed.

Lemma header_row_is_first_with_two_indicators_witness :
  header_row_idx lower_gap_sheet = Some 1.
Proof.
  apply (proj1 header_row_is_first_with_two_indicators lower_gap_sheet 1).
  exists [Str "Invoice no"; NaN; Str "customer"].
  split; [reflexivity | split].
  - vm_compute. lia.
  - intros j r Hj Hr. destruct j as [|j]; [|lia].
    injection Hr as <-. vm_compute. lia.
Defined.
